(** * HRDS_Server: the spreadsheet-backed record service of [server.js]

    A shallow embedding of the Express handlers of [src/server.js] and of
    the helpers they share ([getLastRowNumber], [logActivity],
    [authenticate]), followed by the properties of the specification that
    were checked against them.

    The spreadsheet is the only state.  Every handler is a computation in a
    state-and-exception monad over a [World] that holds the three sheets,
    the schedule of backend faults and the trace of backend calls made. *)

From Stdlib Require Import ZArith Ascii String DecimalString DecimalPos.
From stdpp Require Import base option list strings gmap.

Local Open Scope Z_scope.
Local Open Scope string_scope.

(** ** JavaScript values *)

(** The scalar values that travel through the handlers: cells read from a
    sheet, fields of a JSON body, row numbers.  Numbers are modelled as
    integers; the code only ever computes [parseInt(..) + 1] on them, which
    is exact in double precision below [MAX_SAFE_INTEGER].  A property that
    states a number read from an arbitrary sheet takes it within that
    bound. *)
Inductive value :=
| VUndefined
| VNull
| VNumber (n : Z)
| VString (s : string).

Global Instance value_eq_dec : EqDecision value.
Proof. solve_decision. Defined.

Definition MAX_SAFE_INTEGER : Z := 2 ^ 53 - 1.

(** A JSON object (request body, response record). *)
Abbreviation object := (gmap string value).

(** [obj.key]: a missing property reads as [undefined]. *)
Definition field (obj : object) (key : string) : value :=
  default VUndefined (obj !! key).

(** [arr[i]]: an index past the end reads as [undefined]. *)
Definition index (arr : list value) (i : nat) : value :=
  default VUndefined (arr !! i).

(** [a === b] on scalars. *)
Definition strict_eq (a b : value) : bool := bool_decide (a = b).

(** Truthiness, as used by [||] and [!]. *)
Definition truthy (v : value) : bool :=
  match v with
  | VUndefined | VNull => false
  | VNumber n => negb (Z.eqb n 0)
  | VString s => negb (String.eqb s "")
  end.

(** [a || b]. *)
Definition js_or (a b : value) : value := if truthy a then a else b.

(** [rows.findIndex(p)], with [None] for [-1]. *)
Fixpoint findIndex {A} (p : A → bool) (l : list A) : option nat :=
  match l with
  | [] => None
  | x :: l' => if p x then Some O else S <$> findIndex p l'
  end.

(** [arr[i] = v]: in range the element is replaced; past the end the array
    grows, the skipped positions being holes that read as [undefined]. *)
Definition array_set (i : nat) (v : value) (arr : list value) : list value :=
  if decide (i < length arr)%nat then <[i := v]> arr
  else arr ++ replicate (i - length arr) VUndefined ++ [v].

(** *** [parseInt(s, 10)] *)

Definition is_whitespace (c : ascii) : bool :=
  let n := nat_of_ascii c in
  Nat.eqb n 32 || (Nat.leb 9 n && Nat.leb n 13).

(** Text is held in UTF-8.  Besides the ASCII blanks, [parseInt] skips
    the other white space and line terminators of the language: U+00A0
    (bytes C2 A0), and in three bytes U+1680 (E1 9A 80), U+2000 to U+200A
    (E2 80 80 to E2 80 8A), U+2028 and U+2029 (E2 80 A8, E2 80 A9), U+202F
    (E2 80 AF), U+205F (E2 81 9F), U+3000 (E3 80 80) and U+FEFF
    (EF BB BF). *)
Definition is_blank2 (a b : ascii) : bool :=
  Nat.eqb (nat_of_ascii a) 194 && Nat.eqb (nat_of_ascii b) 160.

Definition is_blank3 (a b c : ascii) : bool :=
  let x := nat_of_ascii a in
  let y := nat_of_ascii b in
  let z := nat_of_ascii c in
  (Nat.eqb x 225 && Nat.eqb y 154 && Nat.eqb z 128)
  || (Nat.eqb x 226 && Nat.eqb y 128
      && ((Nat.leb 128 z && Nat.leb z 138) || Nat.eqb z 168 || Nat.eqb z 169
          || Nat.eqb z 175))
  || (Nat.eqb x 226 && Nat.eqb y 129 && Nat.eqb z 159)
  || (Nat.eqb x 227 && Nat.eqb y 128 && Nat.eqb z 128)
  || (Nat.eqb x 239 && Nat.eqb y 187 && Nat.eqb z 191).

Fixpoint trim_start (s : string) : string :=
  match s with
  | EmptyString => s
  | String c s1 =>
      if is_whitespace c then trim_start s1
      else if Nat.ltb (nat_of_ascii c) 128 then s
      else
        match s1 with
        | EmptyString => s
        | String c1 s2 =>
            if is_blank2 c c1 then trim_start s2
            else
              match s2 with
              | EmptyString => s
              | String c2 s3 =>
                  if is_blank3 c c1 c2 then trim_start s3 else s
              end
        end
  end.

Definition digit_of (c : ascii) : option Z :=
  let n := nat_of_ascii c in
  if Nat.leb 48 n && Nat.leb n 57 then Some (Z.of_nat (n - 48)) else None.

(** The longest prefix of decimal digits; [acc] is [None] until a digit
    has been read. *)
Fixpoint parse_digits (acc : option Z) (s : string) : option Z :=
  match s with
  | EmptyString => acc
  | String c s' =>
      match digit_of c with
      | Some d => parse_digits (Some (10 * default 0 acc + d)) s'
      | None => acc
      end
  end.

(** [parseInt] of a string in radix 10; [None] is [NaN]. *)
Definition parseInt_string (s : string) : option Z :=
  match trim_start s with
  | String "-"%char s' => Z.opp <$> parse_digits None s'
  | String "+"%char s' => parse_digits None s'
  | s' => parse_digits None s'
  end.

(** The decimal text of an integer, as [String(n)] and as the sheet shows
    a number cell. *)
Definition decimal (n : Z) : string := NilZero.string_of_int (Z.to_int n).

(** [parseInt(v, 10)]: the argument is first converted to a string, so
    [null] and [undefined] give [NaN]. *)
Definition parseInt (v : value) : option Z :=
  match v with
  | VString s => parseInt_string s
  | VNumber n => Some n
  | VUndefined | VNull => None
  end.

(** [parseInt(v, 10) || 1]. *)
Definition parseInt_or_1 (v : value) : Z :=
  match parseInt v with
  | Some n => if Z.eqb n 0 then 1 else n
  | None => 1
  end.

(** ** The spreadsheet *)

(** A sheet holds its data rows, from sheet row 2 downwards (row 1 is the
    header, which no range of the program addresses).  A cell holds the
    text the sheet displays. *)
Abbreviation Table := (list (list string)).

Inductive Sheet := MAIN_DATA | USER_LIST | LOG_ACTIVITY.

Global Instance Sheet_eq_dec : EqDecision Sheet.
Proof. solve_decision. Defined.

(** A range in A1 notation: [sheet!<col_from><row_from>:<col_to><row_to>],
    columns counted from [A = 0]; an absent [row_to] leaves the range open
    downwards, as in ["MAIN_DATA!A2:K"]. *)
Record Range := mkRange {
  sheet : Sheet;
  col_from : nat;
  row_from : nat;
  col_to : nat;
  row_to : option nat
}.

Global Instance Range_eq_dec : EqDecision Range.
Proof. solve_decision. Defined.

Definition colA : nat := 0.
Definition colF : nat := 5.
Definition colG : nat := 6.
Definition colK : nat := 10.

(** ["<sheet>!<c1>2:<c2>"] *)
Definition columns (s : Sheet) (c1 c2 : nat) : Range := mkRange s c1 2 c2 None.
(** ["<sheet>!<c1><r>:<c2><r>"] *)
Definition row_range (s : Sheet) (c1 : nat) (r : nat) (c2 : nat) : Range :=
  mkRange s c1 r c2 (Some r).
(** ["<sheet>!<c><r>"] *)
Definition cell_range (s : Sheet) (c : nat) (r : nat) : Range :=
  mkRange s c r c (Some r).

(** What a cell displays once a value has been written to it: the text
    given, the decimal digits of a number, nothing for [null] or
    [undefined].  The reformatting a sheet may apply to what is entered
    ([valueInputOption]) is not modelled. *)
Definition render (v : value) : string :=
  match v with
  | VNumber n => decimal n
  | VString s => s
  | VUndefined | VNull => ""
  end.

Definition render_row (row : list value) : list string := render <$> row.

(** [readRange]: the rows of the range, each cut to the range's columns. *)
Definition read_range (r : Range) (t : Table) : list (list value) :=
  let below := drop (row_from r - 2) t in
  let rows := match row_to r with
              | Some r1 => take (S r1 - row_from r) below
              | None => below
              end in
  (λ row, VString <$> take (S (col_to r) - col_from r) (drop (col_from r) row))
    <$> rows.

(** Overwrite the cells of one row from column [c] on. *)
Definition overwrite_cells (c : nat) (new : list string) (old : list string)
  : list string :=
  take c (old ++ replicate (c - length old) "") ++ new
  ++ drop (c + length new) old.

Fixpoint overwrite_rows (c : nat) (new : list (list string)) (old : Table)
  : Table :=
  match new with
  | [] => old
  | v :: new' =>
      match old with
      | [] => overwrite_cells c v [] :: overwrite_rows c new' []
      | o :: old' => overwrite_cells c v o :: overwrite_rows c new' old'
      end
  end.

(** [overwriteRange]: replace the cells addressed from the top-left corner
    of the range by the given rows; every other cell keeps its content. *)
Definition write_range (r : Range) (vals : list (list value)) (t : Table)
  : Table :=
  let k := (row_from r - 2)%nat in
  take k (t ++ replicate (k - length t) []) ++
  overwrite_rows (col_from r) (render_row <$> vals) (drop k t).

(** [appendRow]: the rows go after the last row of the table. *)
Definition append_rows (vals : list (list value)) (t : Table) : Table :=
  t ++ (render_row <$> vals).

(** ** The world and the handler monad *)

(** The [values] of an update request: an array of rows, or (as
    [PUT /data/:id] sends it) a bare scalar. *)
Inductive Values :=
| Rows (rows : list (list value))
| Bare (v : value).

(** The calls of [sheets.spreadsheets.values]. *)
Inductive Call :=
| Get (range : Range)
| Append (range : Range) (values : list (list value))
| Update (range : Range) (values : Values).

Global Instance Values_eq_dec : EqDecision Values.
Proof. solve_decision. Defined.

Global Instance Call_eq_dec : EqDecision Call.
Proof. solve_decision. Defined.

(** The state outside the process: the three sheets, the clock, the
    faults the backend is going to answer the next calls with ([true]: the
    call fails; past the end of the list every call succeeds), and the
    trace of the calls made so far, each with whether it failed. *)
Record World := mkWorld {
  main_data : Table;
  user_list : Table;
  log_activity : Table;
  clock : Z;
  faults : list bool;
  calls : list (Call * bool)
}.

Definition table (s : Sheet) (w : World) : Table :=
  match s with
  | MAIN_DATA => main_data w
  | USER_LIST => user_list w
  | LOG_ACTIVITY => log_activity w
  end.

Definition set_table (s : Sheet) (t : Table) (w : World) : World :=
  match s with
  | MAIN_DATA => mkWorld t (user_list w) (log_activity w) (clock w) (faults w) (calls w)
  | USER_LIST => mkWorld (main_data w) t (log_activity w) (clock w) (faults w) (calls w)
  | LOG_ACTIVITY => mkWorld (main_data w) (user_list w) t (clock w) (faults w) (calls w)
  end.

Inductive error :=
| BackendError
| ReferenceError (identifier : string)
| Error (message : string).

Inductive outcome (A : Type) :=
| Returned (a : A)
| Thrown (e : error).
Arguments Returned {A} a.
Arguments Thrown {A} e.

(** A computation runs on the world and either returns or throws. *)
Definition M (A : Type) : Type := World → outcome A * World.

Global Instance M_ret : MRet M := λ A a w, (Returned a, w).
Global Instance M_bind : MBind M := λ A B f m w,
  match m w with
  | (Returned a, w') => f a w'
  | (Thrown e, w') => (Thrown e, w')
  end.

Definition throw {A} (e : error) : M A := λ w, (Thrown e, w).

(** [try { body } catch (error) { handler }] *)
Definition try_catch {A} (body : M A) (handler : error → M A) : M A := λ w,
  match body w with
  | (Returned a, w') => (Returned a, w')
  | (Thrown e, w') => handler e w'
  end.

Definition gets {A} (f : World → A) : M A := λ w, (Returned (f w), w).
Definition modify (f : World → World) : M unit := λ w, (Returned (), f w).

(** One request to the backend: it is recorded in the trace and fails when
    the fault schedule says so. *)
Definition backend (c : Call) : M unit := λ w,
  let failed := default false (head (faults w)) in
  let w' := mkWorld (main_data w) (user_list w) (log_activity w) (clock w)
              (tail (faults w)) (calls w ++ [(c, failed)]) in
  if failed then (Thrown BackendError, w') else (Returned (), w').

(** [sheets.spreadsheets.values.get], giving [response.data.values || []]. *)
Definition sheets_values_get (r : Range) : M (list (list value)) :=
  backend (Get r);; gets (λ w, read_range r (table (sheet r) w)).

(** [sheets.spreadsheets.values.append] *)
Definition sheets_values_append (r : Range) (vals : list (list value)) : M unit :=
  backend (Append r vals);;
  modify (λ w, set_table (sheet r) (append_rows vals (table (sheet r) w)) w).

(** [sheets.spreadsheets.values.update].  A bare scalar is taken as the
    content of the first cell of the range; a backend that refuses such a
    request is the faulting case of the call. *)
Definition sheets_values_update (r : Range) (vals : Values) : M unit :=
  backend (Update r vals);;
  let rows := match vals with Rows rows => rows | Bare v => [[v]] end in
  modify (λ w, set_table (sheet r) (write_range r rows (table (sheet r) w)) w).

(** ** Requests and responses *)

(** The [user] passed to [logActivity]: the verified Google identity at
    login, the decoded session token afterwards. *)
Record User := mkUser { email : string; name : string }.

(** The decoded session token; a token signed without [exp] has none. *)
Record Claims := mkClaims { claims_user : User; exp : option Z }.

(** The [details] argument of [logActivity]. *)
Inductive Details :=
| DetailsText (text : string)
| DetailsData (data : object)
| DetailsUpdate (id : string) (updates : object)
| DetailsId (id : string).

Inductive Body :=
| JsonError (error : string)
| JsonMessage (message : string)
| JsonCreated (message : string) (data : list value)
| JsonRecords (data : list object)
| JsonSession (token : string) (user : User)
| JsonAuthenticated (message : string) (user : Claims).

Record Response := mkResponse { status : nat; body : Body }.

(** What a middleware does with a request. *)
Inductive Event :=
| Send (r : Response)
| Next (user : Claims).

(** [s.split(sep)] for a one-character separator. *)
Fixpoint split (sep : ascii) (s : string) : list string :=
  match s with
  | EmptyString => [EmptyString]
  | String c s' =>
      match split sep s' with
      | [] => []
      | piece :: pieces =>
          if Ascii.eqb c sep then EmptyString :: piece :: pieces
          else String c piece :: pieces
      end
  end.

(** [x < n] for a property [x] that may be missing: [undefined < n] is
    false. *)
Definition lt_number (x : option Z) (n : Z) : bool :=
  match x with
  | Some x => Z.ltb x n
  | None => false
  end.

(** [getLastRowNumber] once the reference column has been read. *)
Definition last_row_number (values : list (list value)) : Z :=
  match last values with
  | None => 0
  | Some row => parseInt_or_1 (js_or (index row 0) VNull)
  end.

(** A record as [GET /data] projects it from a row. *)
Definition record_of_row (row : list value) : object :=
  <["id" := index row 0]> (
  <["fullName" := index row 1]> (
  <["populationId" := index row 2]> (
  <["familyId" := index row 3]> (
  <["gender" := index row 4]> (
  <["dateOfBirth" := index row 5]> (
  <["placeOfBirth" := index row 6]> (
  <["religion" := index row 7]> (
  <["bloodType" := index row 8]> (
  <["lastUpdated" := index row 9]> ∅))))))))).

(** The requests served, by route. *)
Inductive Request :=
| ListRecords                                          (* GET /data *)
| CreateRecord (newData : object)                      (* POST /data/entry *)
| UpdateRecord (id : string) (updatedData : object)    (* PUT /dataupdate/:id *)
| SoftDelete (id : string)                             (* PUT /data/:id *)
| Login (token : string).                              (* POST /auth/google *)

(** The identifier [credentials] is declared nowhere in [server.js] (its
    only other occurrence is a property key of the service-account
    configuration), so evaluating it throws. *)
Definition credentials : M value := throw (ReferenceError "credentials").

Section Handlers.

(** The library functions the handlers call.  [verifyIdToken] and
    [jwt_verify] give [None] where the library throws; [jwt_verify] stands
    for [jwt.verify(token, JWT_SECRET)], which reads the clock on its own,
    before the handler does.  [jwt_sign] is given the payload and the time
    of signing, [toLocaleString] the time to print. *)
Variable verifyIdToken : string → option User.
Variable jwt_sign : User → Z → string.
Variable jwt_verify : string → option Claims.
Variable JSON_stringify : Details → string.
Variable toLocaleString : Z → string.

Definition currentDateTime : M string :=
  gets (λ w, toLocaleString (clock w)).

Definition getLastRowNumber (range : Range) : M Z :=
  try_catch
    (values ← sheets_values_get range;
     mret (last_row_number values))
    (λ _, mret 0).

(** The middleware, given the [Authorization] header and [Date.now()]. *)
Definition authenticate (authorization : option string) (now : Z)
  : list Event :=
  let token := authorization ≫= (λ h, split " " h !! 1%nat) in
  match token with
  | None | Some "" => [Send (mkResponse 401 (JsonError "Unauthorized"))]
  | Some token =>
      match jwt_verify token with
      | None => [Send (mkResponse 401 (JsonError "Token Expired"))]
      | Some decoded =>
          let currentTime := now / 1000 in
          (if lt_number (exp decoded) currentTime
           then [Send (mkResponse 401 (JsonError "Token Expired"))]
           else [])
          ++ [Next decoded]
      end
  end.

Definition logActivity (user : User) (action : string) (details : Details)
  : M unit :=
  try_catch
    (n ← getLastRowNumber (columns LOG_ACTIVITY colA colA);
     let newRowNumber := n + 1 in
     stamp ← currentDateTime;
     let logEntry :=
       [VNumber newRowNumber; VString (name user); VString (email user);
        VString action; VString (JSON_stringify details); VString stamp] in
     sheets_values_append (columns LOG_ACTIVITY colA colF) [logEntry])
    (λ _, throw (Error "Server Error!")).

(** [POST /auth/google] *)
Definition POST_auth_google (token : string) : M Response :=
  try_catch
    (user ← from_option mret (throw (Error "verifyIdToken")) (verifyIdToken token);
     users ← sheets_values_get (columns USER_LIST colA colG);
     let userIndex :=
       findIndex (λ u, strict_eq (index u 2) (VString (email user))) users in
     now ← gets clock;
     let sessionToken := jwt_sign user now in
     users ← match userIndex with
             | None =>
                 c ← credentials;
                 mret (users ++ [[VString (name user); c;
                                  VString sessionToken; VString "user"]])%list
             | Some userIndex =>
                 mret (alter (λ u,
                         array_set 5 (VString "user") (
                         array_set 4 (VString sessionToken) (
                         array_set 3 (VString token) (
                         array_set 1 (VString (name user)) u))))
                       userIndex users)
             end;
     sheets_values_update (columns USER_LIST colA colG) (Rows users);;
     logActivity user "LOGIN" (DetailsText "User Login Attempt");;
     mret (mkResponse 200 (JsonSession sessionToken user)))
    (λ _, mret (mkResponse 401 (JsonError "Authentication failed"))).

(** [GET /data] *)
Definition GET_data : M Response :=
  try_catch
    (rows ← sheets_values_get (columns MAIN_DATA colA colK);
     mret (mkResponse 200 (JsonRecords (record_of_row <$> rows))))
    (λ _, mret (mkResponse 500 (JsonError "Failed to fetch data"))).

(** [POST /data/entry] *)
Definition POST_data_entry (user : User) (newData : object) : M Response :=
  try_catch
    (n ← getLastRowNumber (columns MAIN_DATA colA colA);
     let newRowNumber := n + 1 in
     stamp ← currentDateTime;
     let newRow :=
       [VNumber newRowNumber; field newData "fullName";
        field newData "populationId"; field newData "familyId";
        field newData "gender"; field newData "dateOfBirth";
        field newData "placeOfBirth"; field newData "religion";
        field newData "bloodType"; VString "active"; VString stamp] in
     sheets_values_append (columns MAIN_DATA colA colK) [newRow];;
     logActivity user "CREATE" (DetailsData newData);;
     mret (mkResponse 201 (JsonCreated "Entry created successfully" newRow)))
    (λ _, mret (mkResponse 500 (JsonError "Failed to create entry"))).

(** [PUT /dataupdate/:id] *)
Definition PUT_dataupdate (user : User) (id : string) (updatedData : object)
  : M Response :=
  try_catch
    (rows ← sheets_values_get (columns MAIN_DATA colA colK);
     match findIndex (λ row, strict_eq (index row 0) (VString id)) rows with
     | None => mret (mkResponse 404 (JsonError "Entry not found"))
     | Some rowIndex =>
         stamp ← currentDateTime;
         let updatedRow :=
           [VString id; field updatedData "fullName";
            field updatedData "populationId"; field updatedData "familyId";
            field updatedData "gender"; field updatedData "dateOfBirth";
            field updatedData "placeOfBirth"; field updatedData "religion";
            field updatedData "bloodType"; VString "active"; VString stamp] in
         sheets_values_update
           (row_range MAIN_DATA colA (rowIndex + 2) colK) (Rows [updatedRow]);;
         logActivity user "UPDATE" (DetailsUpdate id updatedData);;
         mret (mkResponse 200 (JsonMessage "Entry updated successfully"))
     end)
    (λ _, mret (mkResponse 500 (JsonError "Failed to update entry"))).

(** [PUT /data/:id] *)
Definition PUT_data (user : User) (id : string) : M Response :=
  try_catch
    (rows ← sheets_values_get (columns MAIN_DATA colA colK);
     match findIndex (λ row, strict_eq (index row 0) (VString id)) rows with
     | None => mret (mkResponse 404 (JsonError "Entry not found"))
     | Some rowIndex =>
         sheets_values_update
           (cell_range MAIN_DATA colK (rowIndex + 2))
           (Bare (VString "tidak aktif"));;
         logActivity user "DELETE" (DetailsId id);;
         mret (mkResponse 200 (JsonMessage "Entry deleted successfully"))
     end)
    (λ _, mret (mkResponse 500 (JsonError "Failed to delete entry"))).

(** The handler of each request; [user] is [req.user], which the login
    route does not read. *)
Definition handle (user : User) (req : Request) : M Response :=
  match req with
  | ListRecords => GET_data
  | CreateRecord newData => POST_data_entry user newData
  | UpdateRecord id updatedData => PUT_dataupdate user id updatedData
  | SoftDelete id => PUT_data user id
  | Login token => POST_auth_google token
  end.

(** A route [app.METHOD(path, authenticate, handler)]: the responses
    passed to [res.json], in order, and the world the request leaves.
    The handler runs exactly when the middleware calls [next()].  The
    client receives the first response; what Express does with a later one
    is not modelled. *)
Definition protected (authorization : option string)
    (handler : User → M Response) (w : World) : list Response * World :=
  let events := authenticate authorization (clock w) in
  let sent : list Response :=
    omap (λ e, match e with Send r => Some r | Next _ => None end) events in
  match omap (λ e, match e with Next u => Some u | Send _ => None end) events with
  | [] => (sent, w)
  | decoded :: _ =>
      match handler (claims_user decoded) w with
      | (Returned r, w') => ((sent ++ [r])%list, w')
      | (Thrown _, w') => (sent, w')
      end
  end.

End Handlers.

(** ** Notions used to state the properties *)

(** The backend calls a request made: the part of the trace of [w'] that
    was not yet in [w]. *)
Definition new_calls (w w' : World) : list (Call * bool) :=
  drop (length (calls w)) (calls w').

(** The column [getLastRowNumber] reads: ["<sheet>!A2:A"]. *)
Definition reference_column (s : Sheet) : Range := columns s colA colA.


(** The number [getLastRowNumber] draws from a sheet when its read
    succeeds. *)
Definition last_number (s : Sheet) (w : World) : Z :=
  last_row_number (read_range (reference_column s) (table s w)).

(** The number a sheet's last row is read as, in words: 0 for a sheet
    without rows; otherwise what [parseInt] makes of the first cell of the
    last row, and 1 when that row has no first cell or the cell is empty,
    is not a number, or reads as 0. *)
Definition number_of_last_row (t : Table) : Z :=
  match last t with
  | None => 0
  | Some row =>
      match row !! 0%nat with
      | None => 1
      | Some txt =>
          match parseInt_string txt with
          | Some m => if Z.eqb m 0 then 1 else m
          | None => 1
          end
      end
  end.



(** The rows as the handlers read them from ["MAIN_DATA!A2:K"] and from
    ["USER_LIST!A2:G"]. *)
Definition records (w : World) : list (list value) :=
  read_range (columns MAIN_DATA colA colK) (main_data w).

Definition users (w : World) : list (list value) :=
  read_range (columns USER_LIST colA colG) (user_list w).

(** The lookups of the handlers: a record by id, a user by email. *)
Definition has_id (id : string) (row : list value) : bool :=
  strict_eq (index row 0) (VString id).

Definition has_email (e : string) (u : list value) : bool :=
  strict_eq (index u 2) (VString e).

(** The text a cell displays; nothing where the sheet has no cell. *)
Definition cell (t : Table) (i k : nat) : string :=
  default "" (t !! i ≫= (λ row, row !! k)).

(** The status and the timestamp of a record are kept in columns J and K:
    that is where [newRow] and [updatedRow] put them. *)
Definition colJ : nat := 9.

(** The row [POST /data/entry] and [PUT /dataupdate/:id] build. *)
Definition record_row (id : value) (data : object) (stamp : string)
  : list value :=
  [id; field data "fullName"; field data "populationId"; field data "familyId";
   field data "gender"; field data "dateOfBirth"; field data "placeOfBirth";
   field data "religion"; field data "bloodType"; VString "active";
   VString stamp].

Definition is_mutation (req : Request) : Prop :=
  match req with
  | CreateRecord _ | UpdateRecord _ _ | SoftDelete _ => True
  | ListRecords | Login _ => False
  end.

(** The action a request is logged under. *)
Definition action_of (req : Request) : string :=
  match req with
  | ListRecords => ""
  | CreateRecord _ => "CREATE"
  | UpdateRecord _ _ => "UPDATE"
  | SoftDelete _ => "DELETE"
  | Login _ => "LOGIN"
  end.

(** A table whose rows carry their own position as id: row [i] (from 0)
    has [i + 1] in its first cell. *)
Definition numbered (t : Table) : Prop :=
  ∀ i row, t !! i = Some row → row !! 0%nat = Some (decimal (Z.of_nat (S i))).

(** The worlds the service reaches from an empty records table by serving
    requests, none of which meets a failed read of the reference column of
    the records.  Between two requests the sheets stay as they are; the
    clock and the faults to come are the environment's. *)
Definition same_sheets (w1 w2 : World) : Prop :=
  main_data w1 = main_data w2 ∧ user_list w1 = user_list w2 ∧
  log_activity w1 = log_activity w2.

Inductive reachable (verifyIdToken : string → option User)
    (jwt_sign : User → Z → string) (stringify : Details → string)
    (fmt : Z → string) : World → Prop :=
| reachable_empty w :
    main_data w = [] →
    reachable verifyIdToken jwt_sign stringify fmt w
| reachable_serve w w0 user req r w' :
    reachable verifyIdToken jwt_sign stringify fmt w →
    same_sheets w w0 →
    handle verifyIdToken jwt_sign stringify fmt user req w0 = (Returned r, w') →
    (Get (reference_column MAIN_DATA), true) ∉ new_calls w0 w' →
    reachable verifyIdToken jwt_sign stringify fmt w'.

(** What the login does to the array of a user that is in the table. *)
Definition sync_user (name assertion session : string) (u : list value)
  : list value :=
  array_set 5 (VString "user") (
  array_set 4 (VString session) (
  array_set 3 (VString assertion) (
  array_set 1 (VString name) u))).

(** The row of a user after a login: name, assertion, session token and
    role in columns B, D, E and F, the other cells as they were. *)
Definition synced_row (name assertion session : string) (old : list string)
  : list string :=
  <[5%nat := "user"]> (<[4%nat := session]> (<[3%nat := assertion]> (
  <[1%nat := name]> (old ++ replicate (6 - length old) "")%list))).

(** *** The three statements of the specification that the code does not
    satisfy as they stand, as predicates of one request *)

(** "The id assigned to the new record equals 1 plus the number of
    existing rows." *)
Definition id_is_row_count_plus_1 (stringify : Details → string)
    (fmt : Z → string) (user : User) (newData : object) (w : World) : Prop :=
  ∀ r w',
    POST_data_entry stringify fmt user newData w = (Returned r, w') →
    status r = 201%nat →
    ∃ cells,
      body r = JsonCreated "Entry created successfully"
                 (VNumber (1 + Z.of_nat (length (main_data w))) :: cells).

(** "The entry's sequence number equals the row count of the log table
    before the append plus 1." *)
Definition sequence_is_row_count_plus_1 (stringify : Details → string)
    (fmt : Z → string) (user : User) (newData : object) (w : World) : Prop :=
  ∀ r w',
    POST_data_entry stringify fmt user newData w = (Returned r, w') →
    status r = 201%nat →
    ∃ cells,
      log_activity w' =
        (log_activity w
         ++ [decimal (Z.of_nat (length (log_activity w)) + 1) :: cells])%list.


(** *** Concrete inputs *)

Definition sample_stringify (d : Details) : string :=
  match d with
  | DetailsText text => text
  | DetailsData _ => "{data}"
  | DetailsUpdate id _ => "{id,updates}"
  | DetailsId id => "{id}"
  end.

Definition sample_time (t : Z) : string := decimal t.

Definition ani : User := mkUser "ani@example.org" "Ani".

Definition sample_verifyIdToken (token : string) : option User :=
  if String.eqb token "google-assertion" then Some ani else None.

Definition sample_sign (u : User) (now : Z) : string :=
  "session-of-" ++ email u.

(** A verifier that accepts one token, which expires at second 100. *)
Definition sample_verify (token : string) : option Claims :=
  if String.eqb token "session-of-ani@example.org"
  then Some (mkClaims ani (Some 100)) else None.

Definition sample_payload : object :=
  <["fullName" := VString "Budi"]> (
  <["populationId" := VString "P1"]> (
  <["familyId" := VString "F1"]> (
  <["gender" := VString "M"]> (
  <["dateOfBirth" := VString "2001-02-03"]> (
  <["placeOfBirth" := VString "Bogor"]> (
  <["religion" := VString "-"]> (
  <["bloodType" := VString "O"]> ∅))))))).

(** The same fields with an [id] of their own. *)
Definition payload_with_id : object := <["id" := VString "99"]> sample_payload.

(** A records table with one active record. *)
Definition one_record (id : string) : Table :=
  [[id; "Citra"; "P0"; "F0"; "F"; "1999-09-09"; "Depok"; "-"; "A"; "active";
    "11/2/2026, 9:00:00 AM"]].

Definition one_entry (sequence : string) : Table :=
  [[sequence; "Ani"; "ani@example.org"; "LOGIN"; "User Login Attempt";
    "11/2/2026, 8:59:00 AM"]].

(** A world with the given records and log, the backend answering the
    next calls as [faults] says. *)
Definition world_of (records log : Table) (faults : list bool) : World :=
  mkWorld records [] log 200000 faults [].

(** The response of a run, and the world it leaves. *)
Definition response_of (run : outcome Response * World) : Response :=
  match run.1 with
  | Returned r => r
  | Thrown _ => mkResponse 0 (JsonError "")
  end.

Definition world_after (run : outcome Response * World) : World := run.2.

(** The world in which the table holds record 1 and the log is empty. *)
Definition world_one : World := world_of (one_record "1") [] [].

(** A create on a table that holds record 1. *)
Definition create_second : outcome Response * World :=
  POST_data_entry sample_stringify sample_time ani sample_payload world_one.

(** The same create when the read of the reference column fails. *)
Definition create_after_failed_read : outcome Response * World :=
  POST_data_entry sample_stringify sample_time ani sample_payload
    (world_of (one_record "1") [] [true]).

(** An update of record 1 whose body carries another id, and the list
    after it. *)
Definition update_first : outcome Response * World :=
  PUT_dataupdate sample_stringify sample_time ani "1" payload_with_id world_one.

Definition list_after_update : outcome Response * World :=
  GET_data (world_after update_first).

(** A soft delete of record 1, and the list after it. *)
Definition delete_first : outcome Response * World :=
  PUT_data sample_stringify sample_time ani "1" world_one.

Definition list_after_delete : outcome Response * World :=
  GET_data (world_after delete_first).

Definition list_one : outcome Response * World := GET_data world_one.

(** An update of a record that is not there. *)
Definition update_unknown : outcome Response * World :=
  handle sample_verifyIdToken sample_sign sample_stringify sample_time ani
    (UpdateRecord "2" sample_payload) world_one.

(** The first login of a user, on an empty user table. *)
Definition first_login : outcome Response * World :=
  POST_auth_google sample_verifyIdToken sample_sign sample_stringify
    sample_time "google-assertion" (world_of [] [] []).

(** A login of a user whose row is in the table. *)
Definition world_with_ani : World :=
  mkWorld []
    [["u1"; "Old name"; "ani@example.org"; "old-assertion"; "old-session";
      "admin"; "note"]]
    [] 200000 [] [].

Definition repeat_login : outcome Response * World :=
  POST_auth_google sample_verifyIdToken sample_sign sample_stringify
    sample_time "google-assertion" world_with_ani.

(** A create in a world whose log holds one entry. *)
Definition create_logged (sequence : string) : outcome Response * World :=
  handle sample_verifyIdToken sample_sign sample_stringify sample_time ani
    (CreateRecord sample_payload) (world_of [] (one_entry sequence) []).

(** A create behind the session check, with the token of [sample_verify],
    which expired at second 100, at second 200. *)
Definition create_with_expired_token : list Response * World :=
  protected sample_verify (Some "Bearer session-of-ani@example.org")
    (λ user, POST_data_entry sample_stringify sample_time user sample_payload)
    world_one.

(** The text of 7 after a no-break space (U+00A0, bytes C2 A0). *)
Definition padded_seven : string :=
  String (ascii_of_nat 194) (String (ascii_of_nat 160) "7").

(** A create on a table whose only record has id 7. *)
Definition world_seven : World := world_of (one_record "7") [] [].

Definition create_after_seven : outcome Response * World :=
  POST_data_entry sample_stringify sample_time ani sample_payload world_seven.



(** An update of record 1 whose audit entry cannot be appended: the
    fourth call fails. *)
Definition world_unlogged : World :=
  world_of (one_record "1") [] [false; false; false; true].

Definition update_unlogged : outcome Response * World :=
  handle sample_verifyIdToken sample_sign sample_stringify sample_time ani
    (UpdateRecord "1" sample_payload) world_unlogged.

(** A log whose last entry is numbered 5, and an entry added to it. *)
Definition world_logged : World := world_of [] (one_entry "5") [].

Definition log_a_login : outcome unit * World :=
  logActivity sample_stringify sample_time ani "LOGIN"
    (DetailsText "User Login Attempt") world_logged.

(** *** Further notions *)

(** [POST /authenticate]: the handler behind the session check answers
    with the decoded token. *)
Definition POST_authenticate (decoded : Claims) : M Response :=
  mret (mkResponse 200 (JsonAuthenticated "Authenticated successfully" decoded)).

(** A route whose handler reads all of [req.user]; [protected] is the case
    of a handler that reads the name and the email only. *)
Definition route (jwt_verify : string → option Claims)
    (authorization : option string) (handler : Claims → M Response)
    (w : World) : list Response * World :=
  let events := authenticate jwt_verify authorization (clock w) in
  let sent : list Response :=
    omap (λ e, match e with Send r => Some r | Next _ => None end) events in
  match omap (λ e, match e with Next u => Some u | Send _ => None end) events with
  | [] => (sent, w)
  | decoded :: _ =>
      match handler decoded w with
      | (Returned r, w') => ((sent ++ [r])%list, w')
      | (Thrown _, w') => (sent, w')
      end
  end.

(** The token the middleware takes from the header:
    [authorization?.split(" ")[1]]. *)
Definition bearer (authorization : option string) : option string :=
  authorization ≫= (λ h, split " " h !! 1%nat).

(** Whether a character occurs in a string. *)
Fixpoint occurs (c : ascii) (s : string) : bool :=
  match s with
  | EmptyString => false
  | String c' s' => Ascii.eqb c' c || occurs c s'
  end.

(** The writes of the handlers to the records. *)
Definition is_record_write (c : Call) : bool :=
  match c with
  | Append r _ | Update r _ => bool_decide (sheet r = MAIN_DATA)
  | Get _ => false
  end.

(** *** Further concrete inputs *)

(** The world of [world_one] at second 50, before the token of
    [sample_verify] expires. *)
Definition world_early : World := mkWorld (one_record "1") [] [] 50000 [] [].

Definition ani_header : option string :=
  Some "Bearer session-of-ani@example.org".

(** The create handler, as a handler of a route. *)
Definition create_handler (decoded : Claims) : M Response :=
  POST_data_entry sample_stringify sample_time (claims_user decoded)
    sample_payload.

Definition create_early : outcome Response * World :=
  create_handler (mkClaims ani (Some 100)) world_early.

(** Two records with the same id, and an update of that id. *)
Definition world_twins : World :=
  world_of (one_record "1" ++ one_record "1")%list [] [].

Definition update_twins : outcome Response * World :=
  handle sample_verifyIdToken sample_sign sample_stringify sample_time ani
    (UpdateRecord "1" sample_payload) world_twins.

(** A second soft delete of record 1, and an update after the first. *)
Definition delete_again : outcome Response * World :=
  PUT_data sample_stringify sample_time ani "1" (world_after delete_first).

Definition update_deleted : outcome Response * World :=
  PUT_dataupdate sample_stringify sample_time ani "1" sample_payload
    (world_after delete_first).




(** * Properties *)

(** ** Tactics for running a handler *)

Ltac unfold_handlers :=
  unfold handle, POST_auth_google, PUT_dataupdate, PUT_data, POST_data_entry,
    GET_data, logActivity, getLastRowNumber, currentDateTime, credentials,
    try_catch, sheets_values_get, sheets_values_append, sheets_values_update,
    mbind, M_bind, mret, M_ret, backend, gets, modify, throw.

(** Case analysis on the answer of the backend to the next call. *)
Ltac next_fault :=
  match goal with
  | |- context [default false (head ?fs)] =>
      let b := fresh "failed" in
      destruct (default false (head fs)) eqn:b; simpl
  end.

(** Bring [new_calls w w'] to the explicit list of the calls made. *)
Ltac trace_eq :=
  unfold new_calls; simpl; rewrite <- ?app_assoc; simpl;
  rewrite ?drop_app_length, ?drop_all.

(** A failed read that the hypothesis [H] excludes is in the trace. *)
Ltac absurd_read H :=
  destruct H; trace_eq; rewrite !elem_of_cons; tauto.

(** Two calls of a trace are the same call. *)
Ltac same_call H :=
  cbv delta [reference_column columns colA colF colG colK] in H; simplify_eq.

(** A call that is not in an explicit trace. *)
Ltac not_in_trace H :=
  exfalso;
  repeat (apply elem_of_cons in H as [H|H];
          [first [discriminate H | by same_call H]|]);
  by apply elem_of_nil in H.

(** The number of an audit entry, by whether the read of the reference
    column is in the trace. *)
Ltac number_goal H :=
  first [ done
        | not_in_trace H
        | by (destruct H; rewrite !elem_of_cons; tauto) ].







(** Membership in an explicit trace. *)
Ltac calls_in H :=
  repeat (apply elem_of_cons in H as [H|H]; [try discriminate H|]);
  try (by apply elem_of_nil in H).

(** ** Auxiliary facts *)

(** *** [findIndex] *)

Lemma findIndex_None {A} (p : A → bool) (l : list A) :
  findIndex p l = None ↔ Forall (λ x, p x = false) l.
Proof.
  induction l as [|x l IH]; simpl.
  - split; auto.
  - destruct (p x) eqn:E.
    + split; [discriminate|]. intros H. inversion H; congruence.
    + rewrite fmap_None, IH. split; [by constructor|]. by inversion 1.
Qed.

Lemma findIndex_Some {A} (p : A → bool) (l : list A) (i : nat) :
  findIndex p l = Some i →
  ∃ x, l !! i = Some x ∧ p x = true.
Proof.
  revert i. induction l as [|x l IH]; intros i; simpl; [discriminate|].
  destruct (p x) eqn:E.
  - intros [= <-]. eauto.
  - rewrite fmap_Some. intros (k & Hk & ->). apply IH in Hk. done.
Qed.

(** [findIndex] returns the first match. *)
Lemma findIndex_first {A} (p : A → bool) (l : list A) (i j : nat) (y : A) :
  findIndex p l = Some i → (j < i)%nat → l !! j = Some y → p y = false.
Proof.
  revert i j. induction l as [|x l IH]; intros i j; simpl; [discriminate|].
  destruct (p x) eqn:E.
  - intros [= <-]. lia.
  - rewrite fmap_Some. intros (k & Hk & ->) Hj. destruct j as [|j]; simpl.
    + congruence.
    + apply (IH k j Hk). lia.
Qed.

(** *** Ranges *)

Lemma read_columns (s : Sheet) (c1 c2 : nat) (t : Table) :
  read_range (columns s c1 c2) t =
  (λ row, VString <$> take (S c2 - c1) (drop c1 row)) <$> t.
Proof. reflexivity. Qed.

Lemma records_lookup (w : World) (i : nat) :
  records w !! i = (λ row, VString <$> take 11 row) <$> main_data w !! i.
Proof. unfold records. rewrite read_columns, list_lookup_fmap. reflexivity. Qed.

Lemma has_id_read (id : string) (row : list string) :
  has_id id (VString <$> take 11 row) = true ↔ row !! 0%nat = Some id.
Proof.
  unfold has_id, strict_eq, index. rewrite bool_decide_eq_true.
  destruct row as [|c row]; simpl; [split; discriminate|].
  split; congruence.
Qed.

(** A row found by id is a row of the table whose first cell is the id. *)
Lemma found_row (id : string) (w : World) (i : nat) :
  findIndex (has_id id) (records w) = Some i →
  ∃ row, main_data w !! i = Some row ∧ row !! 0%nat = Some id.
Proof.
  intros H. apply findIndex_Some in H as (x & Hx & Hp).
  rewrite records_lookup, fmap_Some in Hx. destruct Hx as (row & Hrow & ->).
  exists row. split; [done|]. by apply has_id_read.
Qed.

(** An id that no row carries is not found. *)
Lemma unknown_row (id : string) (w : World) :
  Forall (λ row, row !! 0%nat ≠ Some id) (main_data w) →
  findIndex (has_id id) (records w) = None.
Proof.
  intros H. apply findIndex_None. unfold records. rewrite read_columns.
  apply Forall_fmap. eapply Forall_impl; [exact H|]. intros row Hrow. simpl.
  destruct (has_id id _) eqn:E; [|done]. by apply has_id_read in E.
Qed.

(** An email that no row carries is not found. *)
Lemma unknown_user (e : string) (w : World) :
  Forall (λ row, row !! 2%nat ≠ Some e) (user_list w) →
  findIndex (has_email e) (users w) = None.
Proof.
  intros H. apply findIndex_None. unfold users. rewrite read_columns.
  apply Forall_fmap. eapply Forall_impl; [exact H|]. intros row Hrow. simpl.
  unfold has_email, strict_eq, index. apply bool_decide_eq_false.
  destruct row as [|a [|b [|c row]]]; simpl in *; congruence.
Qed.

(** Writing one row at data row [i], where the table has a row. *)
Lemma write_range_row (r : Range) (i : nat) (vals : list value) (t : Table)
    (old : list string) :
  row_from r = (i + 2)%nat →
  t !! i = Some old →
  write_range r [vals] t =
  <[i := overwrite_cells (col_from r) (render_row vals) old]> t.
Proof.
  intros Hr Hi. unfold write_range. rewrite Hr.
  replace (i + 2 - 2)%nat with i by lia.
  pose proof (lookup_lt_Some _ _ _ Hi) as Hlt.
  replace (i - length t)%nat with O by lia. simpl. rewrite app_nil_r.
  rewrite (drop_S _ _ _ Hi). simpl.
  by rewrite insert_take_drop.
Qed.

(** Overwriting one cell leaves the other cells of the row as they
    were. *)
Lemma overwrite_one_cell (c k : nat) (v : string) (old : list string) :
  k ≠ c →
  default "" (overwrite_cells c [v] old !! k) = default "" (old !! k).
Proof.
  intros Hk. unfold overwrite_cells.
  destruct (decide (k < c)%nat) as [Hlt|Hge].
  - rewrite lookup_app_l by (rewrite length_take, length_app, length_replicate; lia).
    rewrite lookup_take_lt by done.
    destruct (decide (k < length old)%nat).
    + by rewrite lookup_app_l.
    + rewrite lookup_app_r by lia. rewrite lookup_replicate_2 by lia.
      by rewrite (lookup_ge_None_2 old) by lia.
  - rewrite lookup_app_r by (rewrite length_take, length_app, length_replicate; lia).
    rewrite length_take, length_app, length_replicate.
    replace (k - c `min` (length old + (c - length old)))%nat
      with (S (k - c - 1)) by lia.
    simpl. rewrite lookup_drop. f_equal. f_equal. lia.
Qed.

Lemma cell_insert_other (t : Table) (i c : nat) (v : string)
    (old : list string) (j k : nat) :
  t !! i = Some old → k ≠ c →
  cell (<[i := overwrite_cells c [v] old]> t) j k = cell t j k.
Proof.
  intros Hi Hk. unfold cell. destruct (decide (i = j)) as [->|Hij].
  - rewrite list_lookup_insert_eq by (by eapply lookup_lt_Some).
    rewrite Hi. simpl. by apply overwrite_one_cell.
  - by rewrite list_lookup_insert_ne.
Qed.

Lemma cell_insert_this (t : Table) (i c : nat) (v : string)
    (old : list string) :
  t !! i = Some old →
  cell (<[i := overwrite_cells c [v] old]> t) i c = v.
Proof.
  intros Hi. unfold cell.
  rewrite list_lookup_insert_eq by (by eapply lookup_lt_Some). simpl.
  unfold overwrite_cells.
  rewrite lookup_app_r by (rewrite length_take, length_app, length_replicate; lia).
  rewrite length_take, length_app, length_replicate.
  replace (c - c `min` (length old + (c - length old)))%nat with O by lia.
  reflexivity.
Qed.

(** *** [getLastRowNumber] *)

Lemma last_number_empty (s : Sheet) (w : World) :
  table s w = [] → last_number s w = 0.
Proof. unfold last_number. by intros ->. Qed.

(** When the first cell of the last row reads as the number of rows, that
    number is what [getLastRowNumber] returns. *)
Lemma last_number_counts (s : Sheet) (w : World) (row : list string)
    (txt : string) :
  last (table s w) = Some row →
  row !! 0%nat = Some txt →
  parseInt_string txt = Some (Z.of_nat (length (table s w))) →
  last_number s w = Z.of_nat (length (table s w)).
Proof.
  intros Hlast Hcell Hparse.
  assert (Hpos : Z.of_nat (length (table s w)) ≠ 0).
  { destruct (table s w); [done|]. simpl length. lia. }
  unfold last_number, last_row_number, reference_column.
  rewrite read_columns, fmap_last, Hlast. simpl.
  destruct row as [|c row]; [done|]. injection Hcell as ->. simpl.
  unfold index, js_or, parseInt_or_1. simpl.
  destruct txt as [|a txt]; [done|]. simpl. rewrite Hparse.
  by destruct (Z.eqb_spec (Z.of_nat (length (table s w))) 0).
Qed.

(** [getLastRowNumber] reads a sheet as said in words above. *)
Lemma last_number_spec (s : Sheet) (w : World) :
  last_number s w = number_of_last_row (table s w).
Proof.
  unfold last_number, last_row_number, reference_column, number_of_last_row.
  rewrite read_columns, fmap_last.
  destruct (last (table s w)) as [row|]; [|done]. simpl.
  destruct row as [|c row]; [done|].
  destruct c as [|a txt]; reflexivity.
Qed.

(** The cases of [number_of_last_row], one by one. *)
Lemma number_of_last_row_cases (t : Table) :
  (t = [] → number_of_last_row t = 0) ∧
  (∀ row, last t = Some row →
     row !! 0%nat = None ∨ row !! 0%nat = Some "" →
     number_of_last_row t = 1) ∧
  (∀ row txt, last t = Some row → row !! 0%nat = Some txt →
     parseInt_string txt = None ∨ parseInt_string txt = Some 0 →
     number_of_last_row t = 1) ∧
  (∀ row txt m, last t = Some row → row !! 0%nat = Some txt →
     parseInt_string txt = Some m → m ≠ 0 →
     number_of_last_row t = m).
Proof.
  unfold number_of_last_row. split_and!.
  - by intros ->.
  - intros row -> [->| ->]; reflexivity.
  - intros row txt -> -> [->| ->]; reflexivity.
  - intros row txt m -> -> -> Hm. by destruct (Z.eqb_spec m 0).
Qed.

(** *** What [GET /data] projects *)

Lemma record_of_row_fields (row : list value) :
  record_of_row row !! "status" = None ∧
  record_of_row row !! "lastUpdated" = Some (index row colJ) ∧
  record_of_row row !! "id" = Some (index row 0).
Proof. split_and!; reflexivity. Qed.

Lemma GET_data_success (w : World) (r : Response) (w' : World) :
  GET_data w = (Returned r, w') →
  status r = 200%nat →
  body r = JsonRecords (record_of_row <$> records w) ∧
  main_data w' = main_data w.
Proof.
  destruct w as [md ul la ck fs cs]. unfold_handlers; simpl.
  next_fault; intros [= <- <-]; [discriminate|]. done.
Qed.

(** *** A successful update *)

Lemma update_success stringify fmt user id payload w r w' :
  PUT_dataupdate stringify fmt user id payload w = (Returned r, w') →
  status r = 200%nat →
  ∃ i old,
    findIndex (has_id id) (records w) = Some i ∧
    main_data w !! i = Some old ∧
    main_data w' =
      <[i := (render_row (record_row (VString id) payload (fmt (clock w)))
              ++ drop 11 old)%list]> (main_data w).
Proof.
  destruct w as [md ul la ck fs cs]. unfold_handlers; simpl.
  next_fault.
  { intros [= <- <-]; discriminate. }
  destruct (findIndex _ _) as [i|] eqn:Hi; simpl.
  2:{ intros [= <- <-]; discriminate. }
  pose proof (found_row id (mkWorld md ul la ck fs cs) i Hi) as (old & Hold & Hid).
  simpl in Hold.
  repeat next_fault; intros [= <- <-]; try discriminate; intros _;
    exists i, old; (split; [done|]); (split; [done|]); simpl;
    by erewrite write_range_row by (done || reflexivity).
Qed.

(** *** The session check *)

Lemma authenticate_expired jwt_verify (authorization : option string) token
    decoded expiry now :
  authorization ≫= (λ h, split " " h !! 1%nat) = Some token →
  token ≠ "" →
  jwt_verify token = Some decoded →
  exp decoded = Some expiry →
  expiry < now / 1000 →
  authenticate jwt_verify authorization now =
    [Send (mkResponse 401 (JsonError "Token Expired")); Next decoded].
Proof.
  intros Ht Hne Hv He Hlt. unfold authenticate. rewrite Ht.
  destruct token as [|c token]; [done|]. rewrite Hv, He. simpl.
  by rewrite (proj2 (Z.ltb_lt _ _) Hlt).
Qed.

(** A token the verifier refuses stops at the middleware. *)
Lemma authenticate_refused jwt_verify (authorization : option string) token now :
  authorization ≫= (λ h, split " " h !! 1%nat) = Some token →
  jwt_verify token = None →
  ∃ r, authenticate jwt_verify authorization now = [Send r]
       ∧ status r = 401%nat.
Proof.
  intros Ht Hv. unfold authenticate. rewrite Ht.
  destruct token as [|c token]; [by eexists|]. rewrite Hv. by eexists.
Qed.

(** A token that is still valid goes on to the handler, with no response
    from the middleware. *)
Lemma authenticate_valid jwt_verify (authorization : option string) token
    decoded expiry now :
  authorization ≫= (λ h, split " " h !! 1%nat) = Some token →
  token ≠ "" →
  jwt_verify token = Some decoded →
  exp decoded = Some expiry →
  (now / 1000 <= expiry)%Z →
  authenticate jwt_verify authorization now = [Next decoded].
Proof.
  intros Ht Hne Hv He Hle. unfold authenticate. rewrite Ht.
  destruct token as [|c token]; [done|]. rewrite Hv, He. simpl.
  by rewrite (proj2 (Z.ltb_ge _ _) Hle).
Qed.

(** With an expired token that the verifier returned, the route answers
    401 and runs the handler all the same. *)
Lemma expired_token_reaches_handler jwt_verify (authorization : option string)
    token decoded expiry (handler : User → M Response) w r w' :
  authorization ≫= (λ h, split " " h !! 1%nat) = Some token →
  token ≠ "" →
  jwt_verify token = Some decoded →
  exp decoded = Some expiry →
  expiry < clock w / 1000 →
  handler (claims_user decoded) w = (Returned r, w') →
  protected jwt_verify authorization handler w =
    ([mkResponse 401 (JsonError "Token Expired"); r], w').
Proof.
  intros Ht Hne Hv He Hlt Hh. unfold protected.
  rewrite (authenticate_expired _ _ _ _ _ _ Ht Hne Hv He Hlt).
  simpl. by rewrite Hh.
Qed.

(** *** Decimal text and [parseInt] *)

Lemma parse_digits_pos (d : Decimal.uint) (acc : positive) :
  parse_digits (Some (Z.pos acc)) (NilEmpty.string_of_uint d) =
  Some (Z.pos (Pos.of_uint_acc d acc)).
Proof.
  revert acc. induction d; intros acc; simpl; [done|..];
    unfold digit_of; simpl; rewrite <- IHd; do 2 f_equal; lia.
Qed.

Lemma parse_digits_zero (d : Decimal.uint) :
  parse_digits (Some 0) (NilEmpty.string_of_uint d) =
  Some (Z.of_N (Pos.of_uint d)).
Proof.
  induction d; simpl; [done|..]; unfold digit_of; simpl;
    first [exact IHd | apply parse_digits_pos].
Qed.

Lemma parse_digits_of_uint (d : Decimal.uint) :
  d ≠ Decimal.Nil →
  parse_digits None (NilEmpty.string_of_uint d) = Some (Z.of_N (Pos.of_uint d)).
Proof.
  intros Hd. destruct d; [done|..]; simpl; unfold digit_of; simpl;
    first [apply parse_digits_zero | apply parse_digits_pos].
Qed.

Lemma parseInt_string_of_uint (d : Decimal.uint) :
  d ≠ Decimal.Nil →
  parseInt_string (NilEmpty.string_of_uint d) = Some (Z.of_N (Pos.of_uint d)).
Proof.
  intros Hd. rewrite <- (parse_digits_of_uint d Hd).
  by destruct d.
Qed.

(** [parseInt] reads back the decimal text of an integer. *)
Lemma parseInt_decimal (n : Z) : parseInt_string (decimal n) = Some n.
Proof.
  unfold decimal. destruct n as [|p|p]; simpl; [done|..];
    pose proof (DecimalPos.Unsigned.to_uint_nonnil p) as Hnil;
    unfold NilZero.string_of_uint;
    destruct (Pos.to_uint p) eqn:E; try done; rewrite <- E in *.
  all: first
    [ by rewrite parseInt_string_of_uint, DecimalPos.Unsigned.of_to
    | unfold parseInt_string; simpl;
      by rewrite parse_digits_of_uint, DecimalPos.Unsigned.of_to ].
Qed.

(** [parseInt] skips the white space of the language, not only the ASCII
    blanks: a no-break space, a byte order mark followed by a space, a line
    separator (U+2028).  A zero width space (U+200B) is no white space. *)
Example parseInt_skips_white_space :
  parseInt_string padded_seven = Some 7 ∧
  parseInt_string
    (String (ascii_of_nat 239) (String (ascii_of_nat 187)
       (String (ascii_of_nat 191) " 7"))) = Some 7 ∧
  parseInt_string
    (String (ascii_of_nat 226) (String (ascii_of_nat 128)
       (String (ascii_of_nat 168) "-12x"))) = Some (-12) ∧
  parseInt_string
    (String (ascii_of_nat 226) (String (ascii_of_nat 128)
       (String (ascii_of_nat 139) "7"))) = None.
Proof. split_and!; vm_compute; reflexivity. Qed.

(** After a record whose id cell shows 7 behind a no-break space, a create
    assigns id 8. *)
Example create_after_padded_7 :
  response_of
    (POST_data_entry sample_stringify sample_time ani sample_payload
       (world_of (one_record padded_seven) [] [])) =
  mkResponse 201
    (JsonCreated "Entry created successfully"
       (record_row (VNumber 8) sample_payload "200000")).
Proof. vm_compute. reflexivity. Qed.

(** *** Numbered tables *)

Lemma numbered_last_number (s : Sheet) (w : World) :
  numbered (table s w) → last_number s w = Z.of_nat (length (table s w)).
Proof.
  intros Hnum. destruct (last (table s w)) as [row|] eqn:Hlast.
  - apply (last_number_counts s w row (decimal (Z.of_nat (length (table s w)))));
      [exact Hlast| |apply parseInt_decimal].
    rewrite last_lookup in Hlast. pose proof (Hnum _ _ Hlast) as Hcell.
    rewrite Hcell. do 3 f_equal.
    apply lookup_lt_Some in Hlast. lia.
  - apply last_None in Hlast. rewrite (last_number_empty s w Hlast).
    by rewrite Hlast.
Qed.

Lemma numbered_app (t : Table) (row : list string) :
  numbered t →
  row !! 0%nat = Some (decimal (Z.of_nat (length t) + 1)) →
  numbered (t ++ [row]).
Proof.
  intros Hnum Hrow i r Hi. destruct (decide (i < length t)%nat).
  - rewrite lookup_app_l in Hi by done. by apply Hnum.
  - rewrite lookup_app_r in Hi by lia.
    destruct (i - length t)%nat eqn:E; simpl in Hi; [|by rewrite lookup_nil in Hi].
    injection Hi as <-. rewrite Hrow. do 2 f_equal. lia.
Qed.

Lemma numbered_insert (t : Table) (i : nat) (old new : list string) :
  numbered t → t !! i = Some old → new !! 0%nat = old !! 0%nat →
  numbered (<[i := new]> t).
Proof.
  intros Hnum Hold Hnew j r Hj. destruct (decide (i = j)) as [->|Hne].
  - rewrite list_lookup_insert_eq in Hj by (by eapply lookup_lt_Some).
    injection Hj as <-. rewrite Hnew. by apply Hnum.
  - rewrite list_lookup_insert_ne in Hj by done. by apply Hnum.
Qed.

Lemma overwrite_keeps_first_cell (c : nat) (new old : list string) (x : string) :
  (0 < c)%nat → old !! 0%nat = Some x →
  overwrite_cells c new old !! 0%nat = Some x.
Proof.
  intros Hc Hx. unfold overwrite_cells.
  destruct old as [|y old]; [done|]. destruct c as [|c]; [lia|]. done.
Qed.

(** What a create whose reference read succeeds does to the table. *)
Lemma create_result stringify fmt user newData w r w' :
  POST_data_entry stringify fmt user newData w = (Returned r, w') →
  (Get (reference_column MAIN_DATA), true) ∉ new_calls w w' →
  let newRow :=
    record_row (VNumber (last_number MAIN_DATA w + 1)) newData (fmt (clock w)) in
  (main_data w' = main_data w ∨
   main_data w' = (main_data w ++ [render_row newRow])%list) ∧
  (status r = 201%nat →
   body r = JsonCreated "Entry created successfully" newRow ∧
   main_data w' = (main_data w ++ [render_row newRow])%list).
Proof.
  unfold last_number.
  destruct w as [md ul la ck fs cs]. unfold_handlers; simpl.
  next_fault.
  { repeat next_fault; intros [= <- <-] Hread; absurd_read Hread. }
  repeat next_fault; intros [= <- <-] _; simpl; (split; [auto|]);
    first [discriminate | done].
Qed.

(** On a numbered table a create whose reference read succeeds gives the
    new record the number of rows plus 1, and the table stays numbered. *)
Lemma create_on_numbered_table stringify fmt user newData w r w' :
  numbered (main_data w) →
  POST_data_entry stringify fmt user newData w = (Returned r, w') →
  (Get (reference_column MAIN_DATA), true) ∉ new_calls w w' →
  numbered (main_data w') ∧
  (status r = 201%nat →
   ∃ cells,
     body r = JsonCreated "Entry created successfully"
                (VNumber (1 + Z.of_nat (length (main_data w))) :: cells)).
Proof.
  intros Hnum Hrun Hread.
  destruct (create_result _ _ _ _ _ _ _ Hrun Hread) as [Htable Hok].
  rewrite (numbered_last_number MAIN_DATA w Hnum) in Htable, Hok. simpl in *.
  split.
  - destruct Htable as [-> | ->]; [done|]. by apply numbered_app.
  - intros H201. destruct (Hok H201) as [Hbody _]. rewrite Hbody.
    eexists. unfold record_row. do 3 f_equal. lia.
Qed.

(** No request takes the numbering away, as long as the read of the
    reference column of the records does not fail: an update rewrites the
    id it found, a soft delete writes column K only. *)
Lemma numbering_is_kept verifyIdToken jwt_sign stringify fmt user req w r w' :
  numbered (main_data w) →
  handle verifyIdToken jwt_sign stringify fmt user req w = (Returned r, w') →
  (Get (reference_column MAIN_DATA), true) ∉ new_calls w w' →
  numbered (main_data w').
Proof.
  intros Hnum Hrun Hread. destruct req as [|newData|id payload|id|token].
  - revert Hrun. destruct w as [md ul la ck fs cs]. unfold_handlers; simpl.
    next_fault; by intros [= <- <-].
  - by destruct (create_on_numbered_table _ _ _ _ _ _ _ Hnum Hrun Hread).
  - revert Hrun. clear Hread.
    destruct w as [md ul la ck fs cs]. unfold_handlers; simpl. simpl in Hnum.
    next_fault; [by intros [= <- <-]|].
    destruct (findIndex _ _) as [i|] eqn:Hi; simpl; [|by intros [= <- <-]].
    pose proof (found_row id (mkWorld md ul la ck fs cs) i Hi) as (old & Hold & Hid).
    simpl in Hold.
    repeat next_fault; intros [= <- <-]; simpl; try done;
      erewrite write_range_row by (done || reflexivity);
      by eapply numbered_insert.
  - revert Hrun. clear Hread.
    destruct w as [md ul la ck fs cs]. unfold_handlers; simpl. simpl in Hnum.
    next_fault; [by intros [= <- <-]|].
    destruct (findIndex _ _) as [i|] eqn:Hi; simpl; [|by intros [= <- <-]].
    pose proof (found_row id (mkWorld md ul la ck fs cs) i Hi) as (old & Hold & Hid).
    simpl in Hold.
    repeat next_fault; intros [= <- <-]; simpl; try done;
      erewrite write_range_row by (done || reflexivity);
      (eapply numbered_insert; [done|done|]);
      rewrite Hid;
      (apply overwrite_keeps_first_cell; [simpl; unfold colK; lia | done]).
  - revert Hrun. clear Hread.
    destruct w as [md ul la ck fs cs]. unfold_handlers; simpl. simpl in Hnum.
    destruct (verifyIdToken token) as [u|]; simpl; [|by intros [= <- <-]].
    next_fault; [by intros [= <- <-]|].
    destruct (findIndex _ _) as [i|]; simpl; [|by intros [= <- <-]].
    repeat next_fault; by intros [= <- <-].
Qed.

(** Every table the service builds from an empty one is numbered. *)
Lemma reachable_numbered verifyIdToken jwt_sign stringify fmt w :
  reachable verifyIdToken jwt_sign stringify fmt w → numbered (main_data w).
Proof.
  induction 1 as [w Hempty | w w0 user req r w' Hreach IH Hsame Hrun Hread].
  - rewrite Hempty. intros i row Hi. by rewrite lookup_nil in Hi.
  - destruct Hsame as (Hmain & _ & _). rewrite Hmain in IH.
    by eapply numbering_is_kept.
Qed.

(** So on such a table the next id is the number of rows plus 1. *)
Lemma create_in_reachable_world verifyIdToken jwt_sign stringify fmt
    user newData w r w' :
  reachable verifyIdToken jwt_sign stringify fmt w →
  POST_data_entry stringify fmt user newData w = (Returned r, w') →
  (Get (reference_column MAIN_DATA), true) ∉ new_calls w w' →
  status r = 201%nat →
  ∃ cells,
    body r = JsonCreated "Entry created successfully"
               (VNumber (1 + Z.of_nat (length (main_data w))) :: cells).
Proof.
  intros Hreach Hrun Hread Hok. apply reachable_numbered in Hreach.
  destruct (create_on_numbered_table _ _ _ _ _ _ _ Hreach Hrun Hread) as [_ H].
  by apply H.
Qed.

(** *** The user sync, for a user that is in the table *)

Lemma sync_user_row (name assertion session : string) (old : list string) :
  (3 ≤ length old)%nat →
  overwrite_cells 0
    (render_row (sync_user name assertion session (VString <$> take 7 old))) old
  = synced_row name assertion session old.
Proof.
  intros Hlen.
  destruct old as [|a [|b [|c [|d [|e [|f [|g rest]]]]]]]; simpl in Hlen;
    try lia; try reflexivity.
  unfold overwrite_cells, synced_row. simpl. by rewrite drop_0, app_nil_r.
Qed.

Lemma render_read_row (cells : list string) :
  render_row (VString <$> cells) = cells.
Proof. unfold render_row. rewrite <- list_fmap_compose. apply list_fmap_id. Qed.

(** Writing back the cells that were read changes nothing. *)
Lemma overwrite_with_itself (old : list string) :
  overwrite_cells 0 (render_row (VString <$> take 7 old)) old = old.
Proof.
  unfold overwrite_cells. rewrite render_read_row. simpl.
  rewrite length_take. destruct (decide (7 ≤ length old)%nat).
  - rewrite Nat.min_l by done. apply take_drop.
  - rewrite Nat.min_r by lia. rewrite take_ge, drop_all by lia. apply app_nil_r.
Qed.

Lemma overwrite_rows_alter (f : list value → list value) (i : nat) (t : Table) :
  overwrite_rows 0
    (render_row <$> alter f i ((λ row, VString <$> take 7 row) <$> t)) t
  = alter (λ old, overwrite_cells 0 (render_row (f (VString <$> take 7 old))) old)
      i t.
Proof.
  revert i. induction t as [|old t IH]; intros i; [done|].
  destruct i as [|i]; simpl.
  - f_equal. clear IH. induction t as [|o t IH]; [done|]. simpl.
    by rewrite overwrite_with_itself, IH.
  - rewrite overwrite_with_itself. f_equal. apply IH.
Qed.

(** When the user is in the table and the read and the write of the user
    rows succeed, the login rewrites the row of the user in place and adds
    no row. *)
Lemma repeat_login_rewrites_the_row verifyIdToken jwt_sign stringify fmt token
    user w i :
  verifyIdToken token = Some user →
  findIndex (has_email (email user)) (users w) = Some i →
  default false (head (faults w)) = false →
  default false (head (tail (faults w))) = false →
  ∃ r w' old,
    POST_auth_google verifyIdToken jwt_sign stringify fmt token w =
      (Returned r, w') ∧
    user_list w !! i = Some old ∧
    old !! 2%nat = Some (email user) ∧
    user_list w' =
      <[i := synced_row (name user) token (jwt_sign user (clock w)) old]>
        (user_list w) ∧
    length (user_list w') = length (user_list w).
Proof.
  intros Hv Hi Hf1 Hf2.
  assert (Hold : ∃ old, user_list w !! i = Some old
                        ∧ old !! 2%nat = Some (email user)).
  { apply findIndex_Some in Hi as (u & Hu & Hp). unfold users in Hu.
    rewrite read_columns, list_lookup_fmap, fmap_Some in Hu.
    destruct Hu as (old & Hold & ->). exists old. split; [done|].
    unfold has_email, strict_eq, index in Hp. apply bool_decide_eq_true in Hp.
    destruct old as [|a [|b [|c old]]]; simpl in *; congruence. }
  destruct Hold as (old & Hold & Hmail).
  assert (Hlen : (3 ≤ length old)%nat).
  { apply lookup_lt_Some in Hmail. lia. }
  unfold users, has_email in Hi.
  destruct w as [md ul la ck fs cs]; simpl in *.
  unfold_handlers; simpl. rewrite Hv; simpl. rewrite Hf1; simpl.
  rewrite Hi; simpl. rewrite Hf2; simpl.
  assert (Htable :
    write_range (columns USER_LIST colA colG)
      (alter (sync_user (name user) token (jwt_sign user ck)) i
         (read_range (columns USER_LIST colA colG) ul)) ul
    = <[i := synced_row (name user) token (jwt_sign user ck) old]> ul).
  { unfold write_range. simpl. rewrite read_columns. simpl.
    rewrite drop_0, overwrite_rows_alter.
    apply list_eq. intros j. destruct (decide (i = j)) as [<-|Hne].
    - rewrite list_lookup_alter_eq, Hold. simpl.
      rewrite list_lookup_insert_eq by (by eapply lookup_lt_Some).
      by rewrite sync_user_row.
    - by rewrite list_lookup_alter_ne, list_lookup_insert_ne. }
  unfold sync_user in Htable.
  repeat next_fault;
    (do 3 eexists; split; [reflexivity|]; simpl; rewrite Htable;
     split_and!; [done|done|done|by rewrite length_insert]).
Qed.

(** ** Record ids *)

(** C1, as stated, fails: on a table whose only row has id 7 a create
    assigns id 8, not 1 + 1. *)
Lemma create_id_is_not_row_count :
  ¬ id_is_row_count_plus_1 sample_stringify sample_time ani sample_payload
      (world_of (one_record "7") [] []).
Proof.
  intros H. destruct (H _ _ eq_refl eq_refl) as [cells Hbody].
  vm_compute in Hbody. discriminate Hbody.
Qed.

(** The run behind it. *)
Example create_after_row_7 :
  POST_data_entry sample_stringify sample_time ani sample_payload
    (world_of (one_record "7") [] []) =
  (Returned (mkResponse 201
     (JsonCreated "Entry created successfully"
        (record_row (VNumber 8) sample_payload "200000"))),
   mkWorld
     (one_record "7"
      ++ [render_row (record_row (VNumber 8) sample_payload "200000")])%list
     []
     [["1"; "Ani"; "ani@example.org"; "CREATE"; "{data}"; "200000"]]
     200000 []
     [(Get (reference_column MAIN_DATA), false);
      (Append (columns MAIN_DATA colA colK)
         [record_row (VNumber 8) sample_payload "200000"], false);
      (Get (reference_column LOG_ACTIVITY), false);
      (Append (columns LOG_ACTIVITY colA colF)
         [[VNumber 1; VString "Ani"; VString "ani@example.org";
           VString "CREATE"; VString "{data}"; VString "200000"]], false)]).
Proof. vm_compute. reflexivity. Qed.

(** C1, amended: for every create request whose reference-column read
    succeeds, the id of the new record is 1 plus the number read from the
    id cell of the last row of the table: 1 on an empty table; 2 when the
    last row has no id cell or the cell is empty, is not a number or reads
    as 0; and m + 1 when [parseInt] reads the cell as m, m not 0, for
    instance when the cell shows m in decimal.  The table is left as it was
    or gains exactly the new row, and a 201 response carries that row.  The
    id is 1 plus the number of existing rows whenever the id cell of the
    last row reads as the number of rows.  Numbers are taken below
    [MAX_SAFE_INTEGER], where the arithmetic of the code is exact. *)
Theorem create_numbers_after_last_row stringify fmt user newData w r w' :
  POST_data_entry stringify fmt user newData w = (Returned r, w') →
  (Get (reference_column MAIN_DATA), true) ∉ new_calls w w' →
  (Z.abs (number_of_last_row (main_data w)) < MAX_SAFE_INTEGER) →
  let id := number_of_last_row (main_data w) + 1 in
  let newRow := record_row (VNumber id) newData (fmt (clock w)) in
  (main_data w' = main_data w ∨
   main_data w' = (main_data w ++ [render_row newRow])%list) ∧
  (status r = 201%nat →
   body r = JsonCreated "Entry created successfully" newRow ∧
   main_data w' = (main_data w ++ [render_row newRow])%list) ∧
  (main_data w = [] → id = 1) ∧
  (∀ row,
     last (main_data w) = Some row →
     row !! 0%nat = None ∨ row !! 0%nat = Some "" →
     id = 2) ∧
  (∀ row txt,
     last (main_data w) = Some row → row !! 0%nat = Some txt →
     parseInt_string txt = None ∨ parseInt_string txt = Some 0 →
     id = 2) ∧
  (∀ row txt m,
     last (main_data w) = Some row → row !! 0%nat = Some txt →
     parseInt_string txt = Some m → m ≠ 0 →
     id = m + 1) ∧
  (∀ row m,
     last (main_data w) = Some row → row !! 0%nat = Some (decimal m) →
     m ≠ 0 →
     id = m + 1) ∧
  (∀ row txt,
     last (main_data w) = Some row → row !! 0%nat = Some txt →
     parseInt_string txt = Some (Z.of_nat (length (main_data w))) →
     id = 1 + Z.of_nat (length (main_data w))).
Proof.
  intros Hrun Hread _ id newRow.
  destruct (create_result _ _ _ _ _ _ _ Hrun Hread) as [Htable Hok].
  revert Htable Hok. unfold newRow, id.
  rewrite (last_number_spec MAIN_DATA w). simpl table. intros Htable Hok.
  destruct (number_of_last_row_cases (main_data w))
    as (Hempty & Hblank & Hnan & Hnum).
  split_and!; [exact Htable | exact Hok | | | | | |].
  - intros H. by rewrite (Hempty H).
  - intros row H1 H2. by rewrite (Hblank row H1 H2).
  - intros row txt H1 H2 H3. by rewrite (Hnan row txt H1 H2 H3).
  - intros row txt m H1 H2 H3 H4. by rewrite (Hnum row txt m H1 H2 H3 H4).
  - intros row m H1 H2 H3.
    by rewrite (Hnum row _ m H1 H2 (parseInt_decimal m) H3).
  - intros row txt H1 H2 H3.
    assert (Hpos : Z.of_nat (length (main_data w)) ≠ 0).
    { destruct (main_data w); [done|]. simpl length. lia. }
    rewrite (Hnum row txt _ H1 H2 H3 Hpos). lia.
Qed.

Lemma create_numbers_after_last_row_witness :
  POST_data_entry sample_stringify sample_time ani sample_payload world_seven =
    (Returned (response_of create_after_seven),
     world_after create_after_seven) ∧
  ((Get (reference_column MAIN_DATA), true)
     ∉ new_calls world_seven (world_after create_after_seven)) ∧
  (Z.abs (number_of_last_row (main_data world_seven)) < MAX_SAFE_INTEGER) ∧
  length (main_data world_seven) = 1%nat ∧
  number_of_last_row (main_data world_seven) + 1 = 8 ∧
  status (response_of create_after_seven) = 201%nat ∧
  body (response_of create_after_seven) =
    JsonCreated "Entry created successfully"
      (record_row (VNumber 8) sample_payload "200000") ∧
  main_data (world_after create_after_seven) =
    (one_record "7"
     ++ [render_row (record_row (VNumber 8) sample_payload "200000")])%list.
Proof.
  assert (Hrun : POST_data_entry sample_stringify sample_time ani sample_payload
                   world_seven =
                 (Returned (response_of create_after_seven),
                  world_after create_after_seven))
    by (vm_compute; reflexivity).
  assert (Hread : (Get (reference_column MAIN_DATA), true)
                    ∉ new_calls world_seven (world_after create_after_seven))
    by (apply (bool_decide_unpack _); vm_compute; exact I).
  assert (Hsafe : Z.abs (number_of_last_row (main_data world_seven))
                  < MAX_SAFE_INTEGER)
    by (vm_compute; reflexivity).
  destruct (create_numbers_after_last_row _ _ _ _ _ _ _ Hrun Hread Hsafe)
    as (_ & Hok & _ & _ & _ & _ & Hdec & _).
  destruct (Hok eq_refl) as [Hbody Htable].
  assert (Hid : number_of_last_row (main_data world_seven) + 1 = 8).
  { apply (Hdec (hd [] (one_record "7")) 7); [reflexivity | reflexivity | lia]. }
  rewrite Hid in Hbody, Htable.
  split_and!; [exact Hrun | exact Hread | exact Hsafe | reflexivity | exact Hid
              | reflexivity | exact Hbody | exact Htable].
Defined.

(** C10: every update request writes, if it writes at all, a replacement
    row whose id cell is the id of the path, whatever the body holds; after
    a successful update the row that was found still has that id in its
    first cell. *)
Theorem update_writes_path_id stringify fmt user id payload w r w' :
  PUT_dataupdate stringify fmt user id payload w = (Returned r, w') →
  (∀ range vals failed, (Update range vals, failed) ∈ new_calls w w' →
     ∃ cells, vals = Rows [VString id :: cells]) ∧
  (status r = 200%nat →
     ∃ i cells row,
       findIndex (has_id id) (records w) = Some i ∧
       (Update (row_range MAIN_DATA colA (i + 2) colK)
               (Rows [VString id :: cells]), false) ∈ new_calls w w' ∧
       main_data w' !! i = Some row ∧ row !! 0%nat = Some id).
Proof.
  destruct w as [md ul la ck fs cs]. unfold_handlers; simpl.
  next_fault.
  { intros [= <- <-]. split; [|discriminate].
    intros range vals failed0. trace_eq. intros H. calls_in H. }
  destruct (findIndex _ _) as [i|] eqn:Hi; simpl.
  2:{ intros [= <- <-]. split; [|discriminate].
      intros range vals failed0. trace_eq. intros H. calls_in H. }
  pose proof (found_row id (mkWorld md ul la ck fs cs) i Hi) as (old & Hold & Hid).
  simpl in Hold.
  repeat next_fault; intros [= <- <-];
    (split; [intros range vals failed' H; revert H; trace_eq; intros H;
             calls_in H; injection H as -> -> ->; eauto | try discriminate]).
  all: intros _; exists i; eexists; eexists; split; [done|];
    (split; [trace_eq; rewrite !elem_of_cons; right; left; reflexivity|]); simpl;
    erewrite write_range_row by (done || reflexivity);
    rewrite list_lookup_insert_eq by (by eapply lookup_lt_Some);
    split; reflexivity.
Qed.

Lemma update_writes_path_id_witness :
  PUT_dataupdate sample_stringify sample_time ani "1" payload_with_id world_one =
    (Returned (response_of update_first), world_after update_first) ∧
  status (response_of update_first) = 200%nat ∧
  field payload_with_id "id" = VString "99" ∧
  ∃ row, main_data (world_after update_first) !! 0%nat = Some row
         ∧ row !! 0%nat = Some "1".
Proof.
  assert (Hrun : PUT_dataupdate sample_stringify sample_time ani "1"
                   payload_with_id world_one =
                 (Returned (response_of update_first), world_after update_first))
    by (vm_compute; reflexivity).
  destruct (update_writes_path_id _ _ _ _ _ _ _ _ Hrun) as [_ Hok].
  destruct (Hok eq_refl) as (i & cells & row & Hi & _ & Hrow & Hid).
  injection Hi as <-.
  split_and!; [exact Hrun | reflexivity | reflexivity | by exists row].
Defined.

(** C6: an update or a soft delete of an id that no row has in its id
    column leaves the three sheets as they are, appends no audit entry and
    makes no backend call besides the read of the rows; it answers 404 (and
    500 when that very read fails). *)
Theorem unknown_id_is_not_found verifyIdToken jwt_sign stringify fmt user id
    w req :
  Forall (λ row, row !! 0%nat ≠ Some id) (main_data w) →
  (∃ payload, req = UpdateRecord id payload) ∨ req = SoftDelete id →
  ∃ r w',
    handle verifyIdToken jwt_sign stringify fmt user req w = (Returned r, w') ∧
    status r = (if default false (head (faults w)) then 500 else 404)%nat ∧
    main_data w' = main_data w ∧ log_activity w' = log_activity w ∧
    user_list w' = user_list w ∧
    ∃ failed, new_calls w w' = [(Get (columns MAIN_DATA colA colK), failed)].
Proof.
  intros Hid Hreq. apply unknown_row in Hid. unfold records, has_id in Hid.
  destruct w as [md ul la ck fs cs]; simpl in *.
  destruct Hreq as [[payload ->] | ->]; unfold_handlers; simpl;
    next_fault; rewrite ?Hid; simpl;
    (do 2 eexists; split; [reflexivity|]; simpl; split_and!; try done;
     eexists; trace_eq; reflexivity).
Qed.

Lemma unknown_id_is_not_found_witness :
  Forall (λ row, row !! 0%nat ≠ Some "2") (main_data world_one) ∧
  status (response_of update_unknown) = 404%nat ∧
  world_after update_unknown =
    mkWorld (one_record "1") [] [] 200000 []
      [(Get (columns MAIN_DATA colA colK), false)].
Proof.
  assert (Hid : Forall (λ row, row !! 0%nat ≠ Some "2") (main_data world_one))
    by (repeat constructor; discriminate).
  destruct (unknown_id_is_not_found sample_verifyIdToken sample_sign
              sample_stringify sample_time ani "2" world_one
              (UpdateRecord "2" sample_payload) Hid
              (or_introl (ex_intro _ sample_payload eq_refl)))
    as (r & w' & Hrun & Hstatus & _).
  unfold update_unknown. rewrite Hrun. simpl.
  split_and!; [exact Hid | exact Hstatus | ].
  injection Hrun as _ <-. reflexivity.
Defined.

(** ** Status and the list of records *)

(** C4, where the code departs from it: the records of a successful
    [GET /data] are the projections of the rows read, and the projection of
    a row has no [status] property, while its [lastUpdated] is the cell of
    column J, the column in which create and update store the status. *)
Theorem list_shows_no_status w r w' :
  GET_data w = (Returned r, w') →
  status r = 200%nat →
  ∃ data,
    body r = JsonRecords data ∧
    length data = length (main_data w) ∧
    ∀ i row, records w !! i = Some row →
      ∃ rec, data !! i = Some rec ∧
             rec !! "id" = Some (index row colA) ∧
             rec !! "status" = None ∧
             rec !! "lastUpdated" = Some (index row colJ).
Proof.
  intros Hrun Hok. destruct (GET_data_success w r w' Hrun Hok) as [Hbody _].
  exists (record_of_row <$> records w). split_and!; [done| |].
  - unfold records. by rewrite read_columns, !length_fmap.
  - intros i row Hrow. exists (record_of_row row).
    rewrite list_lookup_fmap, Hrow. split_and!; reflexivity.
Qed.

Lemma list_shows_no_status_witness :
  GET_data world_one = (Returned (response_of list_one), world_after list_one) ∧
  status (response_of list_one) = 200%nat ∧
  cell (main_data world_one) 0 colJ = "active" ∧
  cell (main_data world_one) 0 colK = "11/2/2026, 9:00:00 AM" ∧
  ∃ rec, body (response_of list_one) = JsonRecords [rec] ∧
         rec !! "status" = None ∧
         rec !! "lastUpdated" = Some (VString "active").
Proof.
  assert (Hrun : GET_data world_one =
                 (Returned (response_of list_one), world_after list_one))
    by (vm_compute; reflexivity).
  destruct (list_shows_no_status _ _ _ Hrun eq_refl) as (data & Hbody & Hlen & Hrec).
  destruct (Hrec O _ eq_refl) as (rec & Hdata & _ & Hstatus & Hlast).
  split_and!; [exact Hrun | reflexivity | reflexivity | reflexivity |].
  exists rec. split_and!; [|exact Hstatus|exact Hlast].
  rewrite Hbody. f_equal.
  destruct data as [|rec' [|]]; [discriminate Hdata| |discriminate Hlen].
  by injection Hdata as ->.
Defined.

(** C2, where the code departs from it: a soft delete leaves every cell
    outside column K as it was, the status cell (column J) included; when it
    succeeds, the cell of column K of the row found, where create and update
    keep the timestamp, reads ["tidak aktif"]. *)
Theorem soft_delete_marks_column_K stringify fmt user id w r w' :
  PUT_data stringify fmt user id w = (Returned r, w') →
  (∀ j, cell (main_data w') j colJ = cell (main_data w) j colJ) ∧
  (∀ j k, k ≠ colK → cell (main_data w') j k = cell (main_data w) j k) ∧
  (status r = 200%nat →
   ∃ i, findIndex (has_id id) (records w) = Some i ∧
        cell (main_data w') i colK = "tidak aktif").
Proof.
  intros Hrun.
  cut ((∀ j k, k ≠ colK → cell (main_data w') j k = cell (main_data w) j k) ∧
       (status r = 200%nat →
        ∃ i, findIndex (has_id id) (records w) = Some i ∧
             cell (main_data w') i colK = "tidak aktif")).
  { intros [H1 H2]. split_and!; [|done|done]. intros j. by apply H1. }
  revert Hrun.
  destruct w as [md ul la ck fs cs]. unfold_handlers; simpl.
  next_fault.
  { intros [= <- <-]. split; [done|discriminate]. }
  destruct (findIndex _ _) as [i|] eqn:Hi; simpl.
  2:{ intros [= <- <-]. split; [done|discriminate]. }
  pose proof (found_row id (mkWorld md ul la ck fs cs) i Hi) as (old & Hold & Hid).
  simpl in Hold.
  repeat next_fault; intros [= <- <-]; simpl;
    try (split; [done|discriminate]);
    erewrite write_range_row by (done || reflexivity); simpl;
    (split; [intros j k Hk; by apply cell_insert_other | try discriminate]).
  all: intros _; exists i; split; [done|]; by apply cell_insert_this.
Qed.

Lemma soft_delete_marks_column_K_witness :
  PUT_data sample_stringify sample_time ani "1" world_one =
    (Returned (response_of delete_first), world_after delete_first) ∧
  status (response_of delete_first) = 200%nat ∧
  cell (main_data (world_after delete_first)) 0 colJ = "active" ∧
  cell (main_data (world_after delete_first)) 0 colK = "tidak aktif" ∧
  ∃ rec, body (response_of list_after_delete) = JsonRecords [rec] ∧
         rec !! "status" = None ∧
         rec !! "lastUpdated" = Some (VString "active").
Proof.
  assert (Hrun : PUT_data sample_stringify sample_time ani "1" world_one =
                 (Returned (response_of delete_first), world_after delete_first))
    by (vm_compute; reflexivity).
  destruct (soft_delete_marks_column_K _ _ _ _ _ _ _ Hrun) as (HJ & _ & Hok).
  destruct (Hok eq_refl) as (i & Hi & HK). injection Hi as <-.
  split_and!; [exact Hrun | reflexivity | | exact HK |].
  - rewrite HJ. reflexivity.
  - eexists. split_and!; [vm_compute; reflexivity | reflexivity | reflexivity].
Defined.

(** C3, where the code departs from it: after a successful update the row
    found holds ["active"] in its status cell, yet the record a following
    [GET /data] returns for it has no [status] property: it carries the path
    id and shows ["active"] as [lastUpdated]. *)
Theorem update_then_list_shows_no_status stringify fmt user id payload
    w r w' r2 w2 :
  PUT_dataupdate stringify fmt user id payload w = (Returned r, w') →
  status r = 200%nat →
  GET_data w' = (Returned r2, w2) →
  status r2 = 200%nat →
  ∃ i data rec,
    findIndex (has_id id) (records w) = Some i ∧
    cell (main_data w') i colJ = "active" ∧
    cell (main_data w') i colK = fmt (clock w) ∧
    body r2 = JsonRecords data ∧ data !! i = Some rec ∧
    rec !! "id" = Some (VString id) ∧
    rec !! "status" = None ∧
    rec !! "lastUpdated" = Some (VString "active").
Proof.
  intros Hput Hok Hget Hok2.
  destruct (GET_data_success _ _ _ Hget Hok2) as [Hbody _].
  destruct (update_success _ _ _ _ _ _ _ _ Hput Hok) as (i & old & Hi & Hold & Hw').
  assert (Hrow : main_data w' !! i =
                 Some (render_row (record_row (VString id) payload (fmt (clock w)))
                       ++ drop 11 old)%list).
  { rewrite Hw'. apply list_lookup_insert_eq. by eapply lookup_lt_Some. }
  exists i, (record_of_row <$> records w'),
    (record_of_row (VString <$> take 11
       (render_row (record_row (VString id) payload (fmt (clock w)))
        ++ drop 11 old)%list)).
  split_and!; try done.
  - unfold cell. by rewrite Hrow.
  - unfold cell. by rewrite Hrow.
  - by rewrite list_lookup_fmap, records_lookup, Hrow.
Qed.

Lemma update_then_list_shows_no_status_witness :
  PUT_dataupdate sample_stringify sample_time ani "1" payload_with_id world_one =
    (Returned (response_of update_first), world_after update_first) ∧
  status (response_of update_first) = 200%nat ∧
  GET_data (world_after update_first) =
    (Returned (response_of list_after_update), world_after list_after_update) ∧
  status (response_of list_after_update) = 200%nat ∧
  ∃ rec, body (response_of list_after_update) = JsonRecords [rec] ∧
         rec !! "status" = None ∧
         rec !! "lastUpdated" = Some (VString "active").
Proof.
  assert (Hput : PUT_dataupdate sample_stringify sample_time ani "1"
                   payload_with_id world_one =
                 (Returned (response_of update_first), world_after update_first))
    by (vm_compute; reflexivity).
  assert (Hget : GET_data (world_after update_first) =
                 (Returned (response_of list_after_update),
                  world_after list_after_update))
    by (vm_compute; reflexivity).
  destruct (update_then_list_shows_no_status _ _ _ _ _ _ _ _ _ _
              Hput eq_refl Hget eq_refl)
    as (i & data & rec & Hi & _ & _ & Hbody & Hdata & _ & Hstatus & Hlast).
  injection Hi as <-.
  split_and!; [exact Hput | reflexivity | exact Hget | reflexivity |].
  exists rec. split_and!; [|exact Hstatus|exact Hlast].
  assert (Hone : ∃ rec', body (response_of list_after_update) = JsonRecords [rec'])
    by (eexists; vm_compute; reflexivity).
  destruct Hone as [rec' Hone]. rewrite Hone in Hbody |- *.
  injection Hbody as <-. by injection Hdata as ->.
Defined.

(** ** The audit log *)

(** C5, as stated, fails: on a log whose only entry has sequence number 5
    a successful create logs an entry numbered 6, not 1 + 1. *)
Lemma audit_sequence_is_not_row_count :
  ¬ sequence_is_row_count_plus_1 sample_stringify sample_time ani
      sample_payload (world_of [] (one_entry "5") []).
Proof.
  intros H. destruct (H _ _ eq_refl eq_refl) as [cells Hlog].
  vm_compute in Hlog. discriminate Hlog.
Qed.

(** What a successful create, update or soft delete adds to the log. *)
Lemma mutation_logs_one_entry verifyIdToken jwt_sign stringify fmt
    user req w r w' :
  is_mutation req →
  handle verifyIdToken jwt_sign stringify fmt user req w = (Returned r, w') →
  (status r < 400)%nat →
  ∃ n details stamp,
    log_activity w' =
      (log_activity w ++
       [[decimal n; name user; email user; action_of req; details;
         stamp]])%list ∧
    ((Get (reference_column LOG_ACTIVITY), true) ∈ new_calls w w' → n = 1) ∧
    ((Get (reference_column LOG_ACTIVITY), true) ∉ new_calls w w' →
     n = last_number LOG_ACTIVITY w + 1).
Proof.
  intros Hreq. unfold last_number.
  destruct w as [md ul la ck fs cs].
  destruct req as [|newData|id payload|id|token]; try done; clear Hreq;
    unfold_handlers; simpl.
  - repeat next_fault; intros [= <- <-] Hok; simpl in *; try lia;
      (do 3 eexists; split; [reflexivity|]; trace_eq; split; intros Hin;
       number_goal Hin).
  - next_fault; [intros [= <- <-]; simpl; lia|].
    destruct (findIndex _ _) as [i|]; simpl; [|intros [= <- <-]; simpl; lia].
    repeat next_fault; intros [= <- <-] Hok; simpl in *; try lia;
      (do 3 eexists; split; [reflexivity|]; trace_eq; split; intros Hin;
       number_goal Hin).
  - next_fault; [intros [= <- <-]; simpl; lia|].
    destruct (findIndex _ _) as [i|]; simpl; [|intros [= <- <-]; simpl; lia].
    repeat next_fault; intros [= <- <-] Hok; simpl in *; try lia;
      (do 3 eexists; split; [reflexivity|]; trace_eq; split; intros Hin;
       number_goal Hin).
Qed.

(** C5, amended: every successful create, update or delete appends exactly
    one entry to the log, made of the sequence number, the name and email of
    the user, the action, the details and a timestamp.  When the read of the
    reference column of the log fails, the entry is numbered 1.  When it
    succeeds, the sequence number is 1 plus the number read from the
    sequence cell of the last entry: 1 on an empty log; 2 when the last
    entry has no sequence cell or the cell is empty, is not a number or
    reads as 0; and m + 1 when [parseInt] reads the cell as m, m not 0, for
    instance when the cell shows m in decimal.  That is the number of
    entries plus 1 whenever the cell reads as the number of entries.
    Numbers are taken below [MAX_SAFE_INTEGER], where the arithmetic of the
    code is exact. *)
Theorem success_appends_one_audit_entry verifyIdToken jwt_sign stringify fmt
    user req w r w' :
  is_mutation req →
  handle verifyIdToken jwt_sign stringify fmt user req w = (Returned r, w') →
  (status r < 400)%nat →
  ∃ number details stamp,
    log_activity w' =
      (log_activity w ++
       [[number; name user; email user; action_of req; details;
         stamp]])%list ∧
    ((Get (reference_column LOG_ACTIVITY), true) ∈ new_calls w w' →
     number = "1") ∧
    ((Get (reference_column LOG_ACTIVITY), true) ∉ new_calls w w' →
     Z.abs (number_of_last_row (log_activity w)) < MAX_SAFE_INTEGER →
     let sequence := number_of_last_row (log_activity w) + 1 in
     number = decimal sequence ∧
     (log_activity w = [] → sequence = 1) ∧
     (∀ row,
        last (log_activity w) = Some row →
        row !! 0%nat = None ∨ row !! 0%nat = Some "" →
        sequence = 2) ∧
     (∀ row txt,
        last (log_activity w) = Some row → row !! 0%nat = Some txt →
        parseInt_string txt = None ∨ parseInt_string txt = Some 0 →
        sequence = 2) ∧
     (∀ row txt m,
        last (log_activity w) = Some row → row !! 0%nat = Some txt →
        parseInt_string txt = Some m → m ≠ 0 →
        sequence = m + 1) ∧
     (∀ row m,
        last (log_activity w) = Some row → row !! 0%nat = Some (decimal m) →
        m ≠ 0 →
        sequence = m + 1) ∧
     (∀ row txt,
        last (log_activity w) = Some row → row !! 0%nat = Some txt →
        parseInt_string txt = Some (Z.of_nat (length (log_activity w))) →
        sequence = Z.of_nat (length (log_activity w)) + 1)).
Proof.
  intros Hreq Hrun Hok.
  destruct (mutation_logs_one_entry _ _ _ _ _ _ _ _ _ Hreq Hrun Hok)
    as (n & details & stamp & Hlog & Hfailed & Hread).
  exists (decimal n), details, stamp.
  split_and!; [exact Hlog | by intros ->%Hfailed |].
  intros ->%Hread _ sequence. unfold sequence.
  rewrite (last_number_spec LOG_ACTIVITY w). simpl table.
  destruct (number_of_last_row_cases (log_activity w))
    as (Hempty & Hblank & Hnan & Hnum).
  split_and!; [reflexivity | | | | | |].
  - intros H. by rewrite (Hempty H).
  - intros row H1 H2. by rewrite (Hblank row H1 H2).
  - intros row txt H1 H2 H3. by rewrite (Hnan row txt H1 H2 H3).
  - intros row txt m H1 H2 H3 H4. by rewrite (Hnum row txt m H1 H2 H3 H4).
  - intros row m H1 H2 H3.
    by rewrite (Hnum row _ m H1 H2 (parseInt_decimal m) H3).
  - intros row txt H1 H2 H3.
    assert (Hpos : Z.of_nat (length (log_activity w)) ≠ 0).
    { destruct (log_activity w); [done|]. simpl length. lia. }
    by rewrite (Hnum row txt _ H1 H2 H3 Hpos).
Qed.

Lemma success_appends_one_audit_entry_witness :
  is_mutation (CreateRecord sample_payload) ∧
  handle sample_verifyIdToken sample_sign sample_stringify sample_time ani
    (CreateRecord sample_payload) world_logged =
    (Returned (response_of (create_logged "5")),
     world_after (create_logged "5")) ∧
  (status (response_of (create_logged "5")) < 400)%nat ∧
  ((Get (reference_column LOG_ACTIVITY), true)
     ∉ new_calls world_logged (world_after (create_logged "5"))) ∧
  (Z.abs (number_of_last_row (log_activity world_logged)) < MAX_SAFE_INTEGER) ∧
  length (log_activity world_logged) = 1%nat ∧
  ∃ details stamp,
    log_activity (world_after (create_logged "5")) =
      (one_entry "5"
       ++ [["6"; "Ani"; "ani@example.org"; "CREATE"; details; stamp]])%list.
Proof.
  assert (Hrun : handle sample_verifyIdToken sample_sign sample_stringify
                   sample_time ani (CreateRecord sample_payload) world_logged =
                 (Returned (response_of (create_logged "5")),
                  world_after (create_logged "5")))
    by (vm_compute; reflexivity).
  assert (Hok : (status (response_of (create_logged "5")) < 400)%nat)
    by (vm_compute; lia).
  assert (Hread : (Get (reference_column LOG_ACTIVITY), true)
                    ∉ new_calls world_logged (world_after (create_logged "5")))
    by (apply (bool_decide_unpack _); vm_compute; exact I).
  assert (Hsafe : Z.abs (number_of_last_row (log_activity world_logged))
                  < MAX_SAFE_INTEGER) by (vm_compute; reflexivity).
  destruct (success_appends_one_audit_entry _ _ _ _ _
              (CreateRecord sample_payload) _ _ _ I Hrun Hok)
    as (number & details & stamp & Hlog & _ & Hnumber).
  destruct (Hnumber Hread Hsafe) as (Hseq & _ & _ & _ & _ & Hdec & _).
  assert (H6 : number_of_last_row (log_activity world_logged) + 1 = 6).
  { apply (Hdec (hd [] (one_entry "5")) 5); [reflexivity | reflexivity | lia]. }
  rewrite H6 in Hseq. subst number.
  split_and!; [exact I | exact Hrun | exact Hok | exact Hread | exact Hsafe
              | reflexivity |].
  exists details, stamp. exact Hlog.
Defined.

(** ** Backend failures *)


(** The run behind it: the second record gets the id of the first. *)
Example create_after_failed_read_repeats_id :
  status (response_of create_after_failed_read) = 201%nat ∧
  new_calls (world_of (one_record "1") [] [true])
    (world_after create_after_failed_read) !! 0%nat
  = Some (Get (reference_column MAIN_DATA), true) ∧
  main_data (world_after create_after_failed_read) =
    (one_record "1"
     ++ [render_row (record_row (VNumber 1) sample_payload "200000")])%list.
Proof. split_and!; vm_compute; reflexivity. Qed.



(** ** Sessions and users *)

(** C7, where the code departs from it: when [jwt.verify] returns a
    decoded token whose expiry lies before the current second, the
    middleware sends 401 and calls [next()] too, so the route runs its
    handler on the world and the handler's response follows the 401. *)
Theorem expired_token_is_answered_and_passed_on jwt_verify
    (authorization : option string) token decoded expiry
    (handler : User → M Response) w r w' :
  authorization ≫= (λ h, split " " h !! 1%nat) = Some token →
  token ≠ "" →
  jwt_verify token = Some decoded →
  exp decoded = Some expiry →
  expiry < clock w / 1000 →
  handler (claims_user decoded) w = (Returned r, w') →
  authenticate jwt_verify authorization (clock w) =
    [Send (mkResponse 401 (JsonError "Token Expired")); Next decoded] ∧
  protected jwt_verify authorization handler w =
    ([mkResponse 401 (JsonError "Token Expired"); r], w').
Proof.
  intros Ht Hne Hv He Hlt Hh. split.
  - by eapply authenticate_expired.
  - by eapply expired_token_reaches_handler.
Qed.

Lemma expired_token_is_answered_and_passed_on_witness :
  Some "Bearer session-of-ani@example.org" ≫= (λ h, split " " h !! 1%nat)
    = Some "session-of-ani@example.org" ∧
  sample_verify "session-of-ani@example.org" = Some (mkClaims ani (Some 100)) ∧
  100 < clock world_one / 1000 ∧
  create_with_expired_token.1 =
    [mkResponse 401 (JsonError "Token Expired"); response_of create_second] ∧
  main_data create_with_expired_token.2 =
    (one_record "1"
     ++ [render_row (record_row (VNumber 2) sample_payload "200000")])%list.
Proof.
  assert (Ht : Some "Bearer session-of-ani@example.org"
                 ≫= (λ h, split " " h !! 1%nat)
               = Some "session-of-ani@example.org") by reflexivity.
  assert (Hne : "session-of-ani@example.org" ≠ "") by discriminate.
  assert (Hv : sample_verify "session-of-ani@example.org"
               = Some (mkClaims ani (Some 100))) by reflexivity.
  assert (Hlt : 100 < clock world_one / 1000) by (vm_compute; reflexivity).
  assert (Hh : POST_data_entry sample_stringify sample_time
                 (claims_user (mkClaims ani (Some 100))) sample_payload world_one
               = (Returned (response_of create_second), world_after create_second))
    by (vm_compute; reflexivity).
  destruct (expired_token_is_answered_and_passed_on sample_verify
              (Some "Bearer session-of-ani@example.org") _ _ 100
              (λ user, POST_data_entry sample_stringify sample_time user
                         sample_payload)
              world_one _ _ Ht Hne Hv eq_refl Hlt Hh) as [_ Hroute].
  unfold create_with_expired_token. rewrite Hroute.
  split_and!; [exact Ht | exact Hv | exact Hlt | reflexivity |].
  vm_compute. reflexivity.
Defined.

(** C9, where the code departs from it: for a verified identity whose
    email no row of the user table carries, the login request is answered
    401, no row is appended, nothing is logged, and the read of the user
    rows is the only backend call made. *)
Theorem first_login_is_rejected verifyIdToken jwt_sign stringify fmt token
    user w :
  verifyIdToken token = Some user →
  Forall (λ row, row !! 2%nat ≠ Some (email user)) (user_list w) →
  ∃ w' failed,
    POST_auth_google verifyIdToken jwt_sign stringify fmt token w =
      (Returned (mkResponse 401 (JsonError "Authentication failed")), w') ∧
    user_list w' = user_list w ∧
    log_activity w' = log_activity w ∧
    new_calls w w' = [(Get (columns USER_LIST colA colG), failed)].
Proof.
  intros Hv Hu. apply unknown_user in Hu. unfold users, has_email in Hu.
  destruct w as [md ul la ck fs cs]; simpl in *.
  unfold_handlers; simpl. rewrite Hv; simpl.
  next_fault; rewrite ?Hu; simpl;
    (do 2 eexists; split; [reflexivity|]; simpl; split_and!; try done;
     trace_eq; reflexivity).
Qed.

Lemma first_login_is_rejected_witness :
  sample_verifyIdToken "google-assertion" = Some ani ∧
  Forall (λ row, row !! 2%nat ≠ Some (email ani)) (user_list (world_of [] [] [])) ∧
  first_login =
    (Returned (mkResponse 401 (JsonError "Authentication failed")),
     mkWorld [] [] [] 200000 [] [(Get (columns USER_LIST colA colG), false)]).
Proof.
  assert (Hv : sample_verifyIdToken "google-assertion" = Some ani) by reflexivity.
  assert (Hu : Forall (λ row, row !! 2%nat ≠ Some (email ani))
                 (user_list (world_of [] [] []))) by constructor.
  destruct (first_login_is_rejected sample_verifyIdToken sample_sign
              sample_stringify sample_time "google-assertion" ani
              (world_of [] [] []) Hv Hu) as (w' & failed & Hrun & _).
  split_and!; [exact Hv | exact Hu |].
  unfold first_login. rewrite Hrun. injection Hrun as <-. reflexivity.
Defined.

(** The other half of the user sync, on a table that holds the user: the
    row is rewritten in place (name, assertion, session token and role), no
    row is added and the login is logged. *)
Example repeat_login_updates_in_place :
  repeat_login =
    (Returned (mkResponse 200
                 (JsonSession "session-of-ani@example.org" ani)),
     mkWorld []
       [["u1"; "Ani"; "ani@example.org"; "google-assertion";
         "session-of-ani@example.org"; "user"; "note"]]
       [["1"; "Ani"; "ani@example.org"; "LOGIN"; "User Login Attempt"; "200000"]]
       200000 []
       [(Get (columns USER_LIST colA colG), false);
        (Update (columns USER_LIST colA colG)
           (Rows [[VString "u1"; VString "Ani"; VString "ani@example.org";
                   VString "google-assertion";
                   VString "session-of-ani@example.org"; VString "user";
                   VString "note"]]), false);
        (Get (columns LOG_ACTIVITY colA colA), false);
        (Append (columns LOG_ACTIVITY colA colF)
           [[VNumber 1; VString "Ani"; VString "ani@example.org";
             VString "LOGIN"; VString "User Login Attempt"; VString "200000"]],
         false)]).
Proof. vm_compute. reflexivity. Qed.

(** * Further properties of the handlers *)

(** ** The session check and the routes behind it *)

Lemma protected_is_route jwt_verify (authorization : option string)
    (handler : User → M Response) (w : World) :
  protected jwt_verify authorization handler w =
  route jwt_verify authorization (λ decoded, handler (claims_user decoded)) w.
Proof. reflexivity. Qed.

(** The ways through [authenticate]. *)
Lemma authenticate_cases jwt_verify (authorization : option string) (now : Z) :
  (bearer authorization = None ∨ bearer authorization = Some "") ∧
    authenticate jwt_verify authorization now =
      [Send (mkResponse 401 (JsonError "Unauthorized"))]
  ∨ (∃ token, bearer authorization = Some token ∧ token ≠ "" ∧
       jwt_verify token = None ∧
       authenticate jwt_verify authorization now =
         [Send (mkResponse 401 (JsonError "Token Expired"))])
  ∨ (∃ token decoded, bearer authorization = Some token ∧ token ≠ "" ∧
       jwt_verify token = Some decoded ∧
       authenticate jwt_verify authorization now =
         ((if lt_number (exp decoded) (now / 1000)
           then [Send (mkResponse 401 (JsonError "Token Expired"))] else [])
          ++ [Next decoded])%list).
Proof.
  unfold authenticate, bearer.
  destruct (authorization ≫= _) as [[|c token]|] eqn:Ht.
  - left. split; [by right|done].
  - destruct (jwt_verify (String c token)) as [decoded|] eqn:Hv.
    + right. right. exists (String c token), decoded. by rewrite Hv.
    + right. left. exists (String c token). by rewrite Hv.
  - left. split; [by left|done].
Qed.

(** X1: the middleware calls [next()] only with what [jwt.verify] returned
    for the second word of the [Authorization] header, and that word is
    not empty; when it does not call [next()], it sends exactly one
    response, a 401. *)
Theorem next_only_after_verification jwt_verify (authorization : option string)
    (now : Z) :
  (∀ decoded,
     Next decoded ∈ authenticate jwt_verify authorization now →
     ∃ token, bearer authorization = Some token ∧ token ≠ "" ∧
              jwt_verify token = Some decoded) ∧
  ((∀ decoded, Next decoded ∉ authenticate jwt_verify authorization now) →
   ∃ r, authenticate jwt_verify authorization now = [Send r] ∧
        status r = 401%nat).
Proof.
  destruct (authenticate_cases jwt_verify authorization now)
    as [[_ ->] | [(token & Ht & Hne & Hv & ->) | (token & d & Ht & Hne & Hv & ->)]].
  - split; [|by eexists]. intros decoded H.
    apply list_elem_of_singleton in H. discriminate H.
  - split; [|by eexists]. intros decoded H.
    apply list_elem_of_singleton in H. discriminate H.
  - split.
    + intros decoded H. exists token. split_and!; [done|done|].
      destruct (lt_number _ _); simpl in H.
      * apply elem_of_cons in H as [H|H]; [discriminate H|].
        apply list_elem_of_singleton in H. by injection H as ->.
      * apply list_elem_of_singleton in H. by injection H as ->.
    + intros H. exfalso. apply (H d). rewrite elem_of_app. right.
      by apply list_elem_of_singleton.
Qed.

(** X2: a request without a usable token, or with a token [jwt.verify]
    refuses, gets one response, a 401, and its handler does not run: the
    world is left as it was, whatever the handler is. *)
Theorem rejected_request_changes_nothing jwt_verify
    (authorization : option string) (handler : Claims → M Response) (w : World) :
  bearer authorization = None ∨ bearer authorization = Some "" ∨
  (∃ token, bearer authorization = Some token ∧ jwt_verify token = None) →
  ∃ message,
    route jwt_verify authorization handler w =
      ([mkResponse 401 (JsonError message)], w) ∧
    (message = "Unauthorized" ∨ message = "Token Expired").
Proof.
  intros H. unfold route.
  destruct (authenticate_cases jwt_verify authorization (clock w))
    as [[_ ->] | [(token & Ht & Hne & Hv & ->) | (token & d & Ht & Hne & Hv & _)]].
  - exists "Unauthorized". split; [done|by left].
  - exists "Token Expired". split; [done|by right].
  - exfalso. destruct H as [H | [H | (token' & H & Hv')]]; congruence.
Qed.

(** X3: with a token that [jwt.verify] returns decoded and whose [exp] is
    not before the current second, or that has no [exp] at all, the
    middleware sends nothing and the route answers with the response of the
    handler, run on the decoded token. *)
Theorem accepted_request_runs_the_handler jwt_verify
    (authorization : option string) token decoded
    (handler : Claims → M Response) (w : World) r w' :
  bearer authorization = Some token →
  token ≠ "" →
  jwt_verify token = Some decoded →
  (∀ expiry, exp decoded = Some expiry → (clock w / 1000 <= expiry)%Z) →
  handler decoded w = (Returned r, w') →
  authenticate jwt_verify authorization (clock w) = [Next decoded] ∧
  route jwt_verify authorization handler w = ([r], w').
Proof.
  intros Ht Hne Hv Hexp Hh.
  assert (Hauth : authenticate jwt_verify authorization (clock w) = [Next decoded]).
  { unfold authenticate. unfold bearer in Ht. rewrite Ht.
    destruct token as [|c token]; [done|]. rewrite Hv.
    destruct (exp decoded) as [expiry|]; simpl; [|done].
    by rewrite (proj2 (Z.ltb_ge _ _) (Hexp expiry eq_refl)). }
  split; [done|]. unfold route. rewrite Hauth. simpl. by rewrite Hh.
Qed.

Lemma split_word (sep : ascii) (word rest : string) :
  occurs sep word = false →
  split sep (word ++ String sep rest) = word :: split sep rest.
Proof.
  induction word as [|c word IH]; simpl; intros Hw.
  - destruct (split sep rest) eqn:E; [|by rewrite Ascii.eqb_refl].
    exfalso. clear -E. revert E. induction rest as [|c rest IH]; simpl; [done|].
    destruct (split sep rest); [by intros; apply IH|].
    by destruct (Ascii.eqb c sep).
  - apply orb_false_iff in Hw as [Hc Hw]. rewrite (IH Hw). by rewrite Hc.
Qed.

Lemma bearer_word (word rest : string) :
  occurs " " word = false →
  bearer (Some (word ++ String " " rest)) = split " " rest !! 0%nat.
Proof.
  intros Hw. unfold bearer, mbind, option_bind.
  by rewrite (split_word " " word rest Hw).
Qed.

(** X4: the first word of the header is not looked at: whatever stands
    before the first space, the token is the word after it, so any scheme
    is treated as [Bearer]. *)
Theorem scheme_is_not_checked jwt_verify (scheme rest : string) (now : Z) :
  occurs " " scheme = false →
  bearer (Some (scheme ++ String " " rest)) = bearer (Some ("Bearer " ++ rest)) ∧
  authenticate jwt_verify (Some (scheme ++ String " " rest)) now =
  authenticate jwt_verify (Some ("Bearer " ++ rest)) now.
Proof.
  intros Hs.
  assert (Hb : bearer (Some (scheme ++ String " " rest))
               = bearer (Some ("Bearer " ++ rest))).
  { rewrite (bearer_word scheme rest Hs).
    change ("Bearer " ++ rest) with ("Bearer" ++ String " " rest).
    by rewrite (bearer_word "Bearer" rest eq_refl). }
  split; [done|]. unfold bearer in Hb. unfold authenticate. by rewrite Hb.
Qed.

(** X5: [POST /authenticate] never touches the world, and with a token
    that passes the session check it answers 200 with the decoded token. *)
Theorem authenticate_route_echoes jwt_verify (authorization : option string)
    (w : World) :
  (route jwt_verify authorization POST_authenticate w).2 = w ∧
  (∀ token decoded,
     bearer authorization = Some token → token ≠ "" →
     jwt_verify token = Some decoded →
     lt_number (exp decoded) (clock w / 1000) = false →
     route jwt_verify authorization POST_authenticate w =
       ([mkResponse 200 (JsonAuthenticated "Authenticated successfully" decoded)],
        w)).
Proof.
  unfold route.
  destruct (authenticate_cases jwt_verify authorization (clock w))
    as [[Hb ->] | [(token & Ht & Hne & Hv & ->) | (token & d & Ht & Hne & Hv & ->)]].
  - split; [done|]. intros token d Ht Hne. destruct Hb; congruence.
  - split; [done|]. intros t d Ht' _ Hv'. congruence.
  - split.
    + by destruct (lt_number _ _).
    + intros t d' Ht' _ Hv' Hlt.
      assert (t = token) as -> by congruence.
      assert (d' = d) as -> by congruence. by rewrite Hlt.
Qed.

(** ** Row numbers and reads *)

Lemma parseInt_or_1_nonzero (v : value) : parseInt_or_1 v ≠ 0.
Proof.
  unfold parseInt_or_1. destruct (parseInt v) as [n|]; [|done].
  by destruct (Z.eqb_spec n 0).
Qed.

(** X6: [getLastRowNumber] never throws, makes one backend call, the read
    of its range, and changes no sheet.  It returns 0 exactly when that read
    failed or gave no rows, so its callers cannot tell a failed read from an
    empty sheet.  Otherwise it looks at the first cell of the last row: it
    returns 1 when there is no such cell or the cell is empty, is not a
    number or reads as 0, and m when [parseInt] reads the cell as m, m not
    0 and not beyond [MAX_SAFE_INTEGER]. *)
Theorem getLastRowNumber_zero (range : Range) (w : World) :
  ∃ n w' failed,
    getLastRowNumber range w = (Returned n, w') ∧
    main_data w' = main_data w ∧ user_list w' = user_list w ∧
    log_activity w' = log_activity w ∧
    new_calls w w' = [(Get range, failed)] ∧
    (n = 0 ↔ failed = true ∨ read_range range (table (sheet range) w) = []) ∧
    (failed = false →
     ∀ row, last (read_range range (table (sheet range) w)) = Some row →
       (index row 0 = VUndefined ∨ index row 0 = VString "" → n = 1) ∧
       (∀ txt, index row 0 = VString txt →
          parseInt_string txt = None ∨ parseInt_string txt = Some 0 →
          n = 1) ∧
       (∀ txt m, index row 0 = VString txt →
          parseInt_string txt = Some m → m ≠ 0 →
          (Z.abs m <= MAX_SAFE_INTEGER)%Z →
          n = m)).
Proof.
  destruct w as [md ul la ck fs cs]. unfold_handlers; simpl.
  next_fault.
  - exists 0, (mkWorld md ul la ck (tail fs) (cs ++ [(Get range, true)])), true.
    split_and!; try done; [by trace_eq | by split; [left|]].
  - set (t := table (sheet range) (mkWorld md ul la ck (tail fs)
                                     (cs ++ [(Get range, false)]))).
    assert (Ht : t = table (sheet range) (mkWorld md ul la ck fs cs))
      by (unfold t; by destruct (sheet range)).
    rewrite <- Ht.
    exists (last_row_number (read_range range t)),
      (mkWorld md ul la ck (tail fs) (cs ++ [(Get range, false)])), false.
    split_and!; try done; [by trace_eq | |].
    + unfold last_row_number.
      destruct (last (read_range range t)) as [row|] eqn:Hlast.
      * split; [by intros H%parseInt_or_1_nonzero|].
        intros [H|H]; [done|]. by rewrite H in Hlast.
      * split; [|done]. intros _. right. by apply last_None.
    + intros _ row Hlast. unfold last_row_number. rewrite Hlast.
      split_and!.
      * intros [->| ->]; reflexivity.
      * intros txt -> Hparse. unfold js_or, parseInt_or_1.
        destruct txt as [|a txt]; [reflexivity|].
        change (truthy (VString (String a txt))) with true. cbv iota.
        change (parseInt (VString (String a txt)))
          with (parseInt_string (String a txt)).
        by destruct Hparse as [->| ->].
      * intros txt m -> Hparse Hm _. unfold js_or, parseInt_or_1.
        destruct txt as [|a txt]; [done|].
        change (truthy (VString (String a txt))) with true. cbv iota.
        change (parseInt (VString (String a txt)))
          with (parseInt_string (String a txt)).
        rewrite Hparse. by destruct (Z.eqb_spec m 0).
Qed.

(** X7: [GET /data] reads and never writes: it makes one backend call, the
    read of columns A to K, leaves the three sheets as they are, and answers
    200 with one record for each row, or 500 when the read fails. *)
Theorem list_only_reads (w : World) :
  ∃ r w' failed,
    GET_data w = (Returned r, w') ∧
    main_data w' = main_data w ∧ user_list w' = user_list w ∧
    log_activity w' = log_activity w ∧
    new_calls w w' = [(Get (columns MAIN_DATA colA colK), failed)] ∧
    r = (if failed
         then mkResponse 500 (JsonError "Failed to fetch data")
         else mkResponse 200 (JsonRecords (record_of_row <$> records w))).
Proof.
  destruct w as [md ul la ck fs cs]. unfold_handlers; simpl.
  next_fault; (do 3 eexists; split; [reflexivity|]; simpl;
               split_and!; try done; [by trace_eq | reflexivity]).
Qed.

(** ** Logins *)

(** The write of the login, for a user found in the table. *)
Lemma sync_write (e n a s : string) (w : World) (i : nat) :
  findIndex (has_email e) (users w) = Some i →
  ∃ old,
    user_list w !! i = Some old ∧ old !! 2%nat = Some e ∧
    write_range (columns USER_LIST colA colG)
      (alter (sync_user n a s) i
         (read_range (columns USER_LIST colA colG) (user_list w)))
      (user_list w)
    = <[i := synced_row n a s old]> (user_list w).
Proof.
  intros Hi.
  apply findIndex_Some in Hi as (u & Hu & Hp). unfold users in Hu.
  rewrite read_columns, list_lookup_fmap, fmap_Some in Hu.
  destruct Hu as (old & Hold & ->). exists old.
  assert (Hmail : old !! 2%nat = Some e).
  { unfold has_email, strict_eq, index in Hp. apply bool_decide_eq_true in Hp.
    destruct old as [|x [|y [|z old]]]; simpl in *; congruence. }
  split_and!; [done|done|].
  assert (Hlen : (3 ≤ length old)%nat) by (apply lookup_lt_Some in Hmail; lia).
  unfold write_range. simpl. rewrite read_columns. simpl.
  rewrite drop_0, overwrite_rows_alter.
  apply list_eq. intros j. destruct (decide (i = j)) as [<-|Hne].
  - rewrite list_lookup_alter_eq, Hold. simpl.
    rewrite list_lookup_insert_eq by (by eapply lookup_lt_Some).
    by rewrite sync_user_row.
  - by rewrite list_lookup_alter_ne, list_lookup_insert_ne.
Qed.

(** Every way a login can go. *)
Lemma login_run verifyIdToken jwt_sign stringify fmt token w :
  ∃ r w',
    POST_auth_google verifyIdToken jwt_sign stringify fmt token w =
      (Returned r, w') ∧
    main_data w' = main_data w ∧
    (r = mkResponse 401 (JsonError "Authentication failed") ∨
     ∃ user i old n,
       verifyIdToken token = Some user ∧
       r = mkResponse 200 (JsonSession (jwt_sign user (clock w)) user) ∧
       findIndex (has_email (email user)) (users w) = Some i ∧
       user_list w !! i = Some old ∧
       old !! 2%nat = Some (email user) ∧
       user_list w' =
         <[i := synced_row (name user) token (jwt_sign user (clock w)) old]>
           (user_list w) ∧
       log_activity w' =
         (log_activity w ++
          [[decimal n; name user; email user; "LOGIN";
            stringify (DetailsText "User Login Attempt"); fmt (clock w)]])%list).
Proof.
  destruct (verifyIdToken token) as [user|] eqn:Hv.
  2:{ destruct w as [md ul la ck fs cs]. unfold_handlers; simpl.
      rewrite Hv; simpl. do 2 eexists. split; [reflexivity|]. split; [done|by left]. }
  destruct (findIndex (has_email (email user)) (users w)) as [i|] eqn:Hi.
  2:{ unfold users, has_email in Hi.
      destruct w as [md ul la ck fs cs]. unfold_handlers; simpl. simpl in Hi.
      rewrite Hv; simpl.
      next_fault; rewrite ?Hi; simpl;
        (do 2 eexists; split; [reflexivity|]; split; [done|by left]). }
  destruct (sync_write (email user) (name user) token (jwt_sign user (clock w))
              w i Hi) as (old & Hold & Hmail & Htable).
  unfold users, has_email in Hi. unfold sync_user in Htable.
  destruct w as [md ul la ck fs cs]. unfold_handlers; simpl. simpl in *.
  rewrite Hv; simpl.
  next_fault; [do 2 eexists; split; [reflexivity|]; split; [done|by left]|].
  rewrite Hi; simpl.
  repeat next_fault;
    (do 2 eexists; split; [reflexivity|]; split; [done|]); simpl;
    first [ by left
          | right; exists user, i, old; eexists;
            split_and!; [done|done|done|done|done|exact Htable|reflexivity] ].
Qed.

(** X8: a login is always answered, with 200 or with 401
    ["Authentication failed"], the latter for every failure, those of the
    backend included; it never touches the records.  It is answered 200 only
    for an identity whose email is in the user table, with the session token
    signed for it, after one [LOGIN] entry has been logged. *)
Theorem login_outcomes verifyIdToken jwt_sign stringify fmt token w :
  ∃ r w',
    POST_auth_google verifyIdToken jwt_sign stringify fmt token w =
      (Returned r, w') ∧
    main_data w' = main_data w ∧
    (r = mkResponse 401 (JsonError "Authentication failed") ∨
     ∃ user n,
       verifyIdToken token = Some user ∧
       r = mkResponse 200 (JsonSession (jwt_sign user (clock w)) user) ∧
       is_Some (findIndex (has_email (email user)) (users w)) ∧
       log_activity w' =
         (log_activity w ++
          [[decimal n; name user; email user; "LOGIN";
            stringify (DetailsText "User Login Attempt"); fmt (clock w)]])%list).
Proof.
  destruct (login_run verifyIdToken jwt_sign stringify fmt token w)
    as (r & w' & Hrun & Hmain & [H401 | (user & i & old & n & Hv & H200 & Hi & _ & _ & _ & Hlog)]).
  - exists r, w'. split_and!; [done|done|by left].
  - exists r, w'. split_and!; [done|done|]. right. exists user, n.
    split_and!; [done|done|by exists i|done].
Qed.

Lemma findIndex_intro {A} (p : A → bool) (l : list A) (i : nat) (x : A) :
  l !! i = Some x → p x = true →
  (∀ j y, (j < i)%nat → l !! j = Some y → p y = false) →
  findIndex p l = Some i.
Proof.
  revert i. induction l as [|a l IH]; intros i Hx Hp Hbefore; [done|]. simpl.
  destruct i as [|i]; simpl in Hx.
  - injection Hx as ->. by rewrite Hp.
  - rewrite (Hbefore O a) by (done || lia). rewrite (IH i); [done|done|done|].
    intros j y Hj Hy. apply (Hbefore (S j) y); [lia|done].
Qed.

(** The cells of a row after the sync. *)
Lemma synced_row_cells (n a s : string) (old : list string) :
  (3 ≤ length old)%nat →
  synced_row n a s old !! 1%nat = Some n ∧
  synced_row n a s old !! 3%nat = Some a ∧
  synced_row n a s old !! 4%nat = Some s ∧
  synced_row n a s old !! 5%nat = Some "user" ∧
  ∀ k, k ∉ [1; 3; 4; 5]%nat →
       default "" (synced_row n a s old !! k) = default "" (old !! k).
Proof.
  intros Hlen.
  destruct old as [|c0 [|c1 [|c2 old]]]; simpl in Hlen; try lia.
  split_and!.
  1-4: by destruct old as [|c3 [|c4 [|c5 old]]].
  intros k Hk.
  assert (k ≠ 1 ∧ k ≠ 3 ∧ k ≠ 4 ∧ k ≠ 5)%nat as (H1 & H3 & H4 & H5).
  { rewrite !not_elem_of_cons in Hk. tauto. }
  unfold synced_row. rewrite !list_lookup_insert_ne by done.
  destruct (decide (k < length (c0 :: c1 :: c2 :: old))%nat).
  - by rewrite lookup_app_l.
  - rewrite lookup_app_r by lia.
    rewrite (lookup_ge_None_2 (c0 :: c1 :: c2 :: old)) by lia.
    by destruct (replicate _ _ !! _) eqn:E; [apply lookup_replicate in E as [-> _]|].
Qed.

(** X9: after a login answered 200 the user table has as many rows as
    before; the row of the user holds the name, the assertion, the session
    token of the response and the role ["user"] in columns B, D, E and F,
    whatever role it held; every other cell of the table shows what it
    showed; and the email is found in the same row again, so the next login
    of the user rewrites that row and adds none. *)
Theorem login_rewrites_one_row verifyIdToken jwt_sign stringify fmt token w r w' :
  POST_auth_google verifyIdToken jwt_sign stringify fmt token w =
    (Returned r, w') →
  status r = 200%nat →
  ∃ user i,
    verifyIdToken token = Some user ∧
    findIndex (has_email (email user)) (users w) = Some i ∧
    findIndex (has_email (email user)) (users w') = Some i ∧
    length (user_list w') = length (user_list w) ∧
    cell (user_list w') i 1 = name user ∧
    cell (user_list w') i 3 = token ∧
    cell (user_list w') i 4 = jwt_sign user (clock w) ∧
    body r = JsonSession (jwt_sign user (clock w)) user ∧
    cell (user_list w') i 5 = "user" ∧
    ∀ j k, j ≠ i ∨ k ∉ [1; 3; 4; 5]%nat →
           cell (user_list w') j k = cell (user_list w) j k.
Proof.
  intros Hrun Hok.
  destruct (login_run verifyIdToken jwt_sign stringify fmt token w)
    as (r0 & w0 & Hrun0 & _ & Hcases).
  rewrite Hrun in Hrun0. injection Hrun0 as <- <-.
  destruct Hcases as [-> | (user & i & old & n & Hv & -> & Hi & Hold & Hmail & Htable & _)];
    [discriminate Hok|].
  assert (Hlen : (3 ≤ length old)%nat) by (apply lookup_lt_Some in Hmail; lia).
  destruct (synced_row_cells (name user) token (jwt_sign user (clock w)) old Hlen)
    as (H1 & H3 & H4 & H5 & Hother).
  assert (Hrow : user_list w' !! i =
                 Some (synced_row (name user) token (jwt_sign user (clock w)) old)).
  { rewrite Htable. apply list_lookup_insert_eq. by eapply lookup_lt_Some. }
  exists user, i. split_and!; try done.
  - apply (findIndex_intro _ _ _
             (VString <$> take 7 (synced_row (name user) token
                                    (jwt_sign user (clock w)) old))).
    + unfold users. by rewrite read_columns, list_lookup_fmap, Hrow.
    + unfold has_email, strict_eq, index. apply bool_decide_eq_true.
      rewrite list_lookup_fmap, lookup_take_lt by lia.
      specialize (Hother 2%nat). rewrite Hmail in Hother. simpl in Hother.
      destruct (synced_row _ _ _ _ !! 2%nat) as [c|] eqn:E.
      * simpl in *. rewrite Hother; [done|]. rewrite !not_elem_of_cons.
        split_and!; try lia. apply not_elem_of_nil.
      * exfalso. apply lookup_ge_None in E. unfold synced_row in E.
        rewrite !length_insert, length_app in E. lia.
    + intros j y Hj Hy. unfold users in Hy.
      rewrite read_columns, list_lookup_fmap, Htable in Hy.
      rewrite list_lookup_insert_ne in Hy by lia.
      apply (findIndex_first _ _ _ j y Hi Hj).
      unfold users. by rewrite read_columns, list_lookup_fmap.
  - by rewrite Htable, length_insert.
  - unfold cell. by rewrite Hrow; simpl; rewrite H1.
  - unfold cell. by rewrite Hrow; simpl; rewrite H3.
  - unfold cell. by rewrite Hrow; simpl; rewrite H4.
  - unfold cell. by rewrite Hrow; simpl; rewrite H5.
  - intros j k Hjk. unfold cell. destruct (decide (j = i)) as [->|Hne].
    + destruct Hjk as [?|Hk]; [done|]. rewrite Hrow, Hold. simpl. by apply Hother.
    + by rewrite Htable, list_lookup_insert_ne.
Qed.

(** ** Records *)

(** X10: when the append of the audit entry fails, a create, an update or
    a soft delete is answered 500 and nothing is logged, but the write to
    the records has been made and stays: after a create the table holds the
    new row at its end (with id 1 when the read of the reference column
    failed, and otherwise 1 plus the number of the last row, that number
    taken below [MAX_SAFE_INTEGER]), after an update the row found by the
    id holds the cells of the update, after a soft delete column K of that
    row holds the mark. *)
Theorem failed_audit_keeps_the_write verifyIdToken jwt_sign stringify fmt
    user req w r w' entry :
  is_mutation req →
  handle verifyIdToken jwt_sign stringify fmt user req w = (Returned r, w') →
  (Append (columns LOG_ACTIVITY colA colF) entry, true) ∈ new_calls w w' →
  status r = 500%nat ∧
  log_activity w' = log_activity w ∧
  (∃ c, (c, false) ∈ new_calls w w' ∧ is_record_write c = true) ∧
  match req with
  | CreateRecord newData =>
      ∃ id,
        main_data w' =
          (main_data w
           ++ [render_row (record_row (VNumber id) newData (fmt (clock w)))])%list ∧
        ((Get (reference_column MAIN_DATA), true) ∈ new_calls w w' → id = 1) ∧
        ((Get (reference_column MAIN_DATA), true) ∉ new_calls w w' →
         Z.abs (number_of_last_row (main_data w)) < MAX_SAFE_INTEGER →
         id = number_of_last_row (main_data w) + 1)
  | UpdateRecord id payload =>
      ∃ i old,
        findIndex (has_id id) (records w) = Some i ∧
        main_data w !! i = Some old ∧
        main_data w' =
          <[i := (render_row (record_row (VString id) payload (fmt (clock w)))
                  ++ drop 11 old)%list]> (main_data w)
  | SoftDelete id =>
      ∃ i old,
        findIndex (has_id id) (records w) = Some i ∧
        main_data w !! i = Some old ∧
        main_data w' =
          <[i := overwrite_cells colK ["tidak aktif"] old]> (main_data w)
  | ListRecords | Login _ => True
  end.
Proof.
  intros Hreq.
  pose proof (last_number_spec MAIN_DATA w) as Hspec. revert Hspec.
  unfold last_number.
  destruct w as [md ul la ck fs cs]. simpl table. intros Hspec.
  destruct req as [|newData|id payload|id|token]; try done; clear Hreq;
    unfold_handlers; simpl.
  - repeat next_fault; intros [= <- <-] Hin; revert Hin; trace_eq; intros Hin;
      calls_in Hin;
      (split_and!;
       [ done | done
       | eexists; (split; [rewrite !elem_of_cons; right; left; reflexivity|done])
       | eexists; split; [reflexivity|]; split; intros Hread;
         first [ done
               | not_in_trace Hread
               | by (destruct Hread; rewrite !elem_of_cons; tauto)
               | by (intros _; rewrite <- Hspec) ] ]).
  - next_fault; [intros [= <- <-] Hin; revert Hin; trace_eq; intros Hin; calls_in Hin|].
    destruct (findIndex _ _) as [i|] eqn:Hi; simpl;
      [|intros [= <- <-] Hin; revert Hin; trace_eq; intros Hin; calls_in Hin].
    pose proof (found_row id (mkWorld md ul la ck fs cs) i Hi)
      as (old & Hold & Hid).
    simpl in Hold.
    repeat next_fault; intros [= <- <-] Hin; revert Hin; trace_eq; intros Hin;
      calls_in Hin;
      (split_and!;
       [ done | done
       | eexists; (split; [rewrite !elem_of_cons; right; left; reflexivity|done])
       | exists i, old; (split; [done|]); (split; [done|]); simpl;
         by erewrite write_range_row by (done || reflexivity) ]).
  - next_fault; [intros [= <- <-] Hin; revert Hin; trace_eq; intros Hin; calls_in Hin|].
    destruct (findIndex _ _) as [i|] eqn:Hi; simpl;
      [|intros [= <- <-] Hin; revert Hin; trace_eq; intros Hin; calls_in Hin].
    pose proof (found_row id (mkWorld md ul la ck fs cs) i Hi)
      as (old & Hold & Hid).
    simpl in Hold.
    repeat next_fault; intros [= <- <-] Hin; revert Hin; trace_eq; intros Hin;
      calls_in Hin;
      (split_and!;
       [ done | done
       | eexists; (split; [rewrite !elem_of_cons; right; left; reflexivity|done])
       | exists i, old; (split; [done|]); (split; [done|]); simpl;
         by erewrite write_range_row by (done || reflexivity) ]).
Qed.

(** X11: an update and a soft delete are always answered, keep the number
    of rows, leave the user table alone and change no row but the one the
    lookup finds, which is the first row that has the id in its first cell:
    a later row with the same id is never reached. *)
Theorem write_reaches_first_match_only verifyIdToken jwt_sign stringify fmt
    user id req w :
  (∃ payload, req = UpdateRecord id payload) ∨ req = SoftDelete id →
  ∃ r w',
    handle verifyIdToken jwt_sign stringify fmt user req w = (Returned r, w') ∧
    length (main_data w') = length (main_data w) ∧
    user_list w' = user_list w ∧
    (∀ j, findIndex (has_id id) (records w) ≠ Some j →
          main_data w' !! j = main_data w !! j) ∧
    (∀ i j row, findIndex (has_id id) (records w) = Some i → (j < i)%nat →
                main_data w !! j = Some row → row !! 0%nat ≠ Some id).
Proof.
  intros Hreq.
  assert (Hfirst : ∀ i j row, findIndex (has_id id) (records w) = Some i →
            (j < i)%nat → main_data w !! j = Some row → row !! 0%nat ≠ Some id).
  { intros i j row Hi Hj Hrow Hid.
    assert (has_id id (VString <$> take 11 row) = false) as Hno.
    { apply (findIndex_first _ _ _ j _ Hi Hj). by rewrite records_lookup, Hrow. }
    apply has_id_read in Hid. congruence. }
  destruct (findIndex (has_id id) (records w)) as [i|] eqn:Hi.
  2:{ unfold records, has_id in Hi. destruct w as [md ul la ck fs cs].
      simpl in Hi.
      destruct Hreq as [[payload ->] | ->]; unfold_handlers; simpl;
        next_fault; rewrite ?Hi; simpl;
        (do 2 eexists; split; [reflexivity|]; by split_and!). }
  destruct (found_row id w i Hi) as (old & Hold & Hid).
  unfold records, has_id in Hi. destruct w as [md ul la ck fs cs].
  simpl in Hi, Hold.
  destruct Hreq as [[payload ->] | ->]; unfold_handlers; simpl;
    (next_fault; [do 2 eexists; split; [reflexivity|]; by split_and!|]);
    rewrite Hi; simpl;
    repeat next_fault;
    (do 2 eexists; split; [reflexivity|]); simpl;
    try (by split_and!);
    erewrite write_range_row by (done || reflexivity);
    (split_and!; [by rewrite length_insert | done | | done]);
    intros j Hj; apply list_lookup_insert_ne; congruence.
Qed.

(** A successful soft delete, as a change of the table. *)
Lemma delete_success stringify fmt user id w r w' :
  PUT_data stringify fmt user id w = (Returned r, w') →
  status r = 200%nat →
  ∃ i old,
    findIndex (has_id id) (records w) = Some i ∧
    main_data w !! i = Some old ∧
    old !! 0%nat = Some id ∧
    main_data w' =
      <[i := overwrite_cells colK ["tidak aktif"] old]> (main_data w).
Proof.
  destruct w as [md ul la ck fs cs]. unfold_handlers; simpl.
  next_fault.
  { intros [= <- <-]; discriminate. }
  destruct (findIndex _ _) as [i|] eqn:Hi; simpl.
  2:{ intros [= <- <-]; discriminate. }
  pose proof (found_row id (mkWorld md ul la ck fs cs) i Hi) as (old & Hold & Hid).
  simpl in Hold.
  repeat next_fault; intros [= <- <-]; try discriminate; intros _;
    exists i, old; (split_and!; [done|done|done|]); simpl;
    by erewrite write_range_row by (done || reflexivity).
Qed.

(** Rewriting a row without changing its first cell does not move the
    lookup. *)
Lemma lookup_after_rewrite (id : string) (w w' : World) (i : nat)
    (old new : list string) :
  findIndex (has_id id) (records w) = Some i →
  main_data w !! i = Some old →
  old !! 0%nat = Some id →
  new !! 0%nat = Some id →
  main_data w' = <[i := new]> (main_data w) →
  findIndex (has_id id) (records w') = Some i.
Proof.
  intros Hi Hold Hid Hnew Hw'.
  apply (findIndex_intro _ _ _ (VString <$> take 11 new)).
  - rewrite records_lookup, Hw'.
    by rewrite list_lookup_insert_eq by (by eapply lookup_lt_Some).
  - by apply has_id_read.
  - intros j y Hj Hy. rewrite records_lookup, Hw' in Hy.
    rewrite list_lookup_insert_ne in Hy by lia.
    apply (findIndex_first _ _ _ j y Hi Hj). by rewrite records_lookup.
Qed.

Lemma overwrite_prefix_length (c : nat) (old : list string) :
  length (take c (old ++ replicate (c - length old) "")) = c.
Proof. rewrite length_take, length_app, length_replicate. lia. Qed.

(** Writing the same cell twice is writing it once. *)
Lemma overwrite_cell_twice (c : nat) (v : string) (old : list string) :
  overwrite_cells c [v] (overwrite_cells c [v] old) = overwrite_cells c [v] old.
Proof.
  unfold overwrite_cells at 1.
  set (x := overwrite_cells c [v] old).
  assert (Hx : x = (take c (old ++ replicate (c - length old) "")
                    ++ [v] ++ drop (c + length [v]) old)%list) by done.
  pose proof (overwrite_prefix_length c old) as Hlen.
  assert (Hxlen : (c < length x)%nat).
  { rewrite Hx, length_app, Hlen. simpl. lia. }
  replace (c - length x)%nat with O by lia. simpl. rewrite app_nil_r.
  rewrite Hx at 1. rewrite (take_app_length' _ _ c (eq_sym Hlen)).
  rewrite Hx at 1.
  rewrite (app_assoc _ [v]).
  rewrite drop_app_length' by (rewrite length_app, Hlen; simpl; lia).
  by rewrite Hx.
Qed.

(** What lies right of column K is not touched by a write to column K. *)
Lemma overwrite_K_rest (v : string) (old : list string) :
  drop 11 (overwrite_cells colK [v] old) = drop 11 old.
Proof.
  unfold overwrite_cells.
  pose proof (overwrite_prefix_length colK old) as Hlen.
  rewrite (app_assoc _ [v]).
  rewrite drop_app_length'; [done|]. by rewrite length_app, Hlen.
Qed.

(** X12: a soft delete of a record that is soft-deleted already is
    answered 200 again and leaves the records exactly as the first one left
    them. *)
Theorem soft_delete_twice stringify fmt user id w r1 w1 w1' r2 w2 :
  PUT_data stringify fmt user id w = (Returned r1, w1) →
  status r1 = 200%nat →
  main_data w1' = main_data w1 →
  PUT_data stringify fmt user id w1' = (Returned r2, w2) →
  (status r2 = 200%nat ∨ status r2 = 500%nat) ∧
  main_data w2 = main_data w1.
Proof.
  intros Hrun1 Hok1 Hsame Hrun2.
  destruct (delete_success _ _ _ _ _ _ _ Hrun1 Hok1)
    as (i & old & Hi & Hold & Hid & Hw1).
  assert (Hi1 : findIndex (has_id id) (records w1') = Some i).
  { apply (lookup_after_rewrite id w w1' i old
             (overwrite_cells colK ["tidak aktif"] old)); try done.
    - by apply overwrite_keeps_first_cell; [unfold colK; lia|].
    - by rewrite Hsame. }
  assert (Hrow1 : main_data w1' !! i =
                  Some (overwrite_cells colK ["tidak aktif"] old)).
  { rewrite Hsame, Hw1. apply list_lookup_insert_eq. by eapply lookup_lt_Some. }
  assert (Hfix : <[i := overwrite_cells colK ["tidak aktif"]
                          (overwrite_cells colK ["tidak aktif"] old)]>
                   (main_data w1') = main_data w1).
  { rewrite overwrite_cell_twice, Hsame. apply list_insert_id.
    by rewrite <- Hsame. }
  revert Hrun2. unfold records, has_id in Hi1.
  destruct w1' as [md ul la ck fs cs]. simpl in *.
  unfold_handlers; simpl.
  next_fault; [intros [= <- <-]; split; [by right|by rewrite <- Hsame]|].
  rewrite Hi1; simpl.
  repeat next_fault; intros [= <- <-]; simpl;
    (split; [by (left + right)|]);
    first [ by rewrite <- Hsame
          | erewrite write_range_row by (done || reflexivity); exact Hfix ].
Qed.

(** X13: an update of a soft-deleted record overwrites the mark of the
    soft delete: after a soft delete and an update of the same id, both
    successful, the records are what the update alone would have made of the
    table before the soft delete. *)
Theorem update_erases_soft_delete stringify fmt user id payload
    w r1 w1 w1' r2 w2 :
  PUT_data stringify fmt user id w = (Returned r1, w1) →
  status r1 = 200%nat →
  main_data w1' = main_data w1 →
  PUT_dataupdate stringify fmt user id payload w1' = (Returned r2, w2) →
  status r2 = 200%nat →
  ∃ i old,
    findIndex (has_id id) (records w) = Some i ∧
    main_data w !! i = Some old ∧
    main_data w2 =
      <[i := (render_row (record_row (VString id) payload (fmt (clock w1')))
              ++ drop 11 old)%list]> (main_data w) ∧
    cell (main_data w2) i colJ = "active" ∧
    cell (main_data w2) i colK = fmt (clock w1').
Proof.
  intros Hrun1 Hok1 Hsame Hrun2 Hok2.
  destruct (delete_success _ _ _ _ _ _ _ Hrun1 Hok1)
    as (i & old & Hi & Hold & Hid & Hw1).
  assert (Hi1 : findIndex (has_id id) (records w1') = Some i).
  { apply (lookup_after_rewrite id w w1' i old
             (overwrite_cells colK ["tidak aktif"] old)); try done.
    - by apply overwrite_keeps_first_cell; [unfold colK; lia|].
    - by rewrite Hsame. }
  destruct (update_success _ _ _ _ _ _ _ _ Hrun2 Hok2)
    as (i' & old' & Hi' & Hold' & Hw2).
  rewrite Hi1 in Hi'. injection Hi' as <-.
  rewrite Hsame, Hw1 in Hold'.
  rewrite list_lookup_insert_eq in Hold' by (by eapply lookup_lt_Some).
  injection Hold' as <-.
  rewrite overwrite_K_rest in Hw2.
  rewrite Hsame, Hw1, list_insert_insert_eq in Hw2.
  exists i, old. split_and!; [done|done|done| |].
  - unfold cell. rewrite Hw2.
    by rewrite list_lookup_insert_eq by (by eapply lookup_lt_Some).
  - unfold cell. rewrite Hw2.
    by rewrite list_lookup_insert_eq by (by eapply lookup_lt_Some).
Qed.





(** ** The audit log, entry by entry *)

(** X16: [logActivity] either appends one entry of six cells to the log
    and returns, or throws [Error("Server Error!")], whatever the backend
    failed with, and leaves the log as it was; it touches no other sheet.
    The entry is numbered 1 when the read of the reference column failed,
    and otherwise 1 plus the number of the last row of the log, that number
    taken below [MAX_SAFE_INTEGER]. *)
Theorem logActivity_outcomes stringify fmt user action details w :
  ∃ out w',
    logActivity stringify fmt user action details w = (out, w') ∧
    main_data w' = main_data w ∧ user_list w' = user_list w ∧
    ((out = Returned () ∧
      ∃ number,
        log_activity w' =
          (log_activity w ++
           [[number; name user; email user; action; stringify details;
             fmt (clock w)]])%list ∧
        ((Get (reference_column LOG_ACTIVITY), true) ∈ new_calls w w' →
         number = "1") ∧
        ((Get (reference_column LOG_ACTIVITY), true) ∉ new_calls w w' →
         Z.abs (number_of_last_row (log_activity w)) < MAX_SAFE_INTEGER →
         number = decimal (number_of_last_row (log_activity w) + 1)))
     ∨ (out = Thrown (Error "Server Error!") ∧
        log_activity w' = log_activity w)).
Proof.
  pose proof (last_number_spec LOG_ACTIVITY w) as Hspec. revert Hspec.
  unfold last_number. destruct w as [md ul la ck fs cs]. simpl table.
  intros Hspec. unfold_handlers; simpl.
  repeat next_fault;
    (do 2 eexists; split; [reflexivity|]; simpl; split_and!; [done|done|]);
    first [ by right
          | left; split; [done|]; eexists; split; [reflexivity|];
            trace_eq; split; intros Hin;
            first [ done
                  | not_in_trace Hin
                  | by (destruct Hin; rewrite !elem_of_cons; tauto)
                  | by (intros _; rewrite <- Hspec) ] ].
Qed.

Lemma numbered_log_entry (la : Table) (cells : list value) :
  numbered la →
  numbered
    (append_rows
       [VNumber (last_row_number (read_range (columns LOG_ACTIVITY colA colA) la) + 1)
        :: cells] la).
Proof.
  intros Hnum.
  pose proof (numbered_last_number LOG_ACTIVITY (mkWorld [] [] la 0 [] []) Hnum)
    as Hlast.
  unfold last_number, reference_column in Hlast. simpl in Hlast.
  rewrite Hlast. unfold append_rows. simpl. by apply numbered_app.
Qed.

(** X17: the numbering of the log is an invariant of every request whose
    read of the reference column of the log does not fail: if the entries
    carry the numbers 1, 2, 3, ... in order, they still do afterwards, and
    the log has not lost an entry. *)
Theorem log_numbering_is_kept verifyIdToken jwt_sign stringify fmt user req
    w r w' :
  numbered (log_activity w) →
  handle verifyIdToken jwt_sign stringify fmt user req w = (Returned r, w') →
  (Get (reference_column LOG_ACTIVITY), true) ∉ new_calls w w' →
  numbered (log_activity w') ∧
  (length (log_activity w) ≤ length (log_activity w'))%nat ∧
  take (length (log_activity w)) (log_activity w') = log_activity w.
Proof.
  intros Hnum.
  assert (Hsame : numbered (log_activity w) ∧
            (length (log_activity w) ≤ length (log_activity w))%nat ∧
            take (length (log_activity w)) (log_activity w) = log_activity w).
  { split_and!; [done|done|]. by rewrite take_ge. }
  assert (Hmore : ∀ cells,
            numbered (append_rows
              [VNumber (last_row_number
                          (read_range (columns LOG_ACTIVITY colA colA)
                             (log_activity w)) + 1) :: cells] (log_activity w)) ∧
            (length (log_activity w) ≤
             length (append_rows
              [VNumber (last_row_number
                          (read_range (columns LOG_ACTIVITY colA colA)
                             (log_activity w)) + 1) :: cells] (log_activity w)))%nat ∧
            take (length (log_activity w))
              (append_rows
              [VNumber (last_row_number
                          (read_range (columns LOG_ACTIVITY colA colA)
                             (log_activity w)) + 1) :: cells] (log_activity w))
            = log_activity w).
  { intros cells. split_and!.
    - by apply numbered_log_entry.
    - unfold append_rows. rewrite length_app. lia.
    - unfold append_rows. by rewrite take_app_length. }
  clear Hnum. revert Hsame Hmore.
  destruct w as [md ul la ck fs cs]. simpl.
  intros Hsame Hmore.
  destruct req as [|newData|id payload|id|token]; unfold_handlers; simpl.
  - next_fault; by intros [= <- <-].
  - repeat next_fault; intros [= <- <-] Hread; simpl;
      first [ exact Hsame | apply Hmore | absurd_read Hread ].
  - next_fault; [by intros [= <- <-]|].
    destruct (findIndex _ _) as [i|]; simpl; [|by intros [= <- <-]].
    repeat next_fault; intros [= <- <-] Hread; simpl;
      first [ exact Hsame | apply Hmore | absurd_read Hread ].
  - next_fault; [by intros [= <- <-]|].
    destruct (findIndex _ _) as [i|]; simpl; [|by intros [= <- <-]].
    repeat next_fault; intros [= <- <-] Hread; simpl;
      first [ exact Hsame | apply Hmore | absurd_read Hread ].
  - destruct (verifyIdToken token) as [u|]; simpl; [|by intros [= <- <-]].
    next_fault; [by intros [= <- <-]|].
    destruct (findIndex _ _) as [i|]; simpl; [|by intros [= <- <-]].
    repeat next_fault; intros [= <- <-] Hread; simpl;
      first [ exact Hsame | apply Hmore | absurd_read Hread ].
Qed.

(** ** The properties above at concrete inputs *)

Lemma next_only_after_verification_witness :
  Next (mkClaims ani (Some 100)) ∈ authenticate sample_verify ani_header 50000 ∧
  ∃ token, bearer ani_header = Some token ∧ token ≠ "" ∧
           sample_verify token = Some (mkClaims ani (Some 100)).
Proof.
  assert (H : Next (mkClaims ani (Some 100))
              ∈ authenticate sample_verify ani_header 50000)
    by (replace (authenticate sample_verify ani_header 50000)
          with [Next (mkClaims ani (Some 100))] by reflexivity;
        by apply list_elem_of_singleton).
  split; [exact H|].
  exact (proj1 (next_only_after_verification sample_verify ani_header 50000) _ H).
Defined.

Lemma rejected_request_changes_nothing_witness :
  bearer None = None ∧
  ∃ message,
    route sample_verify None create_handler world_one =
      ([mkResponse 401 (JsonError message)], world_one) ∧
    (message = "Unauthorized" ∨ message = "Token Expired").
Proof.
  split; [reflexivity|].
  exact (rejected_request_changes_nothing sample_verify None create_handler
           world_one (or_introl eq_refl)).
Defined.

Lemma accepted_request_runs_the_handler_witness :
  bearer ani_header = Some "session-of-ani@example.org" ∧
  sample_verify "session-of-ani@example.org" = Some (mkClaims ani (Some 100)) ∧
  (clock world_early / 1000 <= 100)%Z ∧
  create_handler (mkClaims ani (Some 100)) world_early =
    (Returned (response_of create_early), world_after create_early) ∧
  authenticate sample_verify ani_header (clock world_early) =
    [Next (mkClaims ani (Some 100))] ∧
  route sample_verify ani_header create_handler world_early =
    ([response_of create_early], world_after create_early).
Proof.
  assert (Ht : bearer ani_header = Some "session-of-ani@example.org")
    by reflexivity.
  assert (Hv : sample_verify "session-of-ani@example.org"
               = Some (mkClaims ani (Some 100))) by reflexivity.
  assert (Hle : (clock world_early / 1000 <= 100)%Z) by (vm_compute; discriminate).
  assert (Hh : create_handler (mkClaims ani (Some 100)) world_early =
               (Returned (response_of create_early), world_after create_early))
    by (vm_compute; reflexivity).
  assert (Hexp : ∀ expiry, exp (mkClaims ani (Some 100)) = Some expiry →
                           (clock world_early / 1000 <= expiry)%Z)
    by (intros expiry [= <-]; exact Hle).
  destruct (accepted_request_runs_the_handler sample_verify ani_header _ _
              create_handler world_early _ _ Ht ltac:(discriminate) Hv Hexp Hh)
    as [Hauth Hroute].
  by split_and!.
Defined.

Lemma scheme_is_not_checked_witness :
  occurs " " "Basic" = false ∧
  bearer (Some "Basic session-of-ani@example.org") =
    Some "session-of-ani@example.org" ∧
  authenticate sample_verify (Some "Basic session-of-ani@example.org") 50000 =
    [Next (mkClaims ani (Some 100))].
Proof.
  assert (Hs : occurs " " "Basic" = false) by reflexivity.
  destruct (scheme_is_not_checked sample_verify "Basic"
              "session-of-ani@example.org" 50000 Hs) as [Hb Ha].
  split_and!; [exact Hs | | ].
  - change (Some "Basic session-of-ani@example.org")
      with (Some ("Basic" ++ String " " "session-of-ani@example.org")).
    rewrite Hb. reflexivity.
  - change (Some "Basic session-of-ani@example.org")
      with (Some ("Basic" ++ String " " "session-of-ani@example.org")).
    rewrite Ha. reflexivity.
Defined.

Lemma authenticate_route_echoes_witness :
  bearer ani_header = Some "session-of-ani@example.org" ∧
  lt_number (exp (mkClaims ani (Some 100))) (clock world_early / 1000) = false ∧
  route sample_verify ani_header POST_authenticate world_early =
    ([mkResponse 200
        (JsonAuthenticated "Authenticated successfully" (mkClaims ani (Some 100)))],
     world_early).
Proof.
  split_and!; [reflexivity | reflexivity |].
  apply (proj2 (authenticate_route_echoes sample_verify ani_header world_early)
           "session-of-ani@example.org"); [reflexivity | discriminate | reflexivity
                                           | reflexivity].
Defined.

Lemma getLastRowNumber_zero_witness :
  ∃ w', getLastRowNumber (reference_column MAIN_DATA) world_seven
          = (Returned 7, w') ∧
        new_calls world_seven w' = [(Get (reference_column MAIN_DATA), false)] ∧
        last (read_range (reference_column MAIN_DATA) (main_data world_seven))
          = Some [VString "7"] ∧
        length (main_data world_seven) = 1%nat.
Proof.
  destruct (getLastRowNumber_zero (reference_column MAIN_DATA) world_seven)
    as (n & w' & failed & Hrun & _ & _ & _ & Hcalls & _ & Hlast).
  assert (Hf : failed = false).
  { assert (Hc : ∃ x, getLastRowNumber (reference_column MAIN_DATA) world_seven
                      = (Returned 7, x)
                      ∧ new_calls world_seven x
                        = [(Get (reference_column MAIN_DATA), false)])
      by (eexists; split; vm_compute; reflexivity).
    destruct Hc as (x & Hx & Hxc). rewrite Hx in Hrun. injection Hrun as <- <-.
    rewrite Hxc in Hcalls. by injection Hcalls as <-. }
  subst failed. exists w'.
  destruct (Hlast eq_refl [VString "7"] eq_refl) as (_ & _ & Hnum).
  assert (Hn : n = 7).
  { apply (Hnum "7"); [reflexivity | reflexivity | lia | vm_compute; discriminate]. }
  rewrite Hn in Hrun.
  split_and!; [exact Hrun | exact Hcalls | reflexivity | reflexivity].
Defined.

Lemma login_rewrites_one_row_witness :
  POST_auth_google sample_verifyIdToken sample_sign sample_stringify sample_time
    "google-assertion" world_with_ani =
    (Returned (response_of repeat_login), world_after repeat_login) ∧
  status (response_of repeat_login) = 200%nat ∧
  cell (user_list world_with_ani) 0 5 = "admin" ∧
  cell (user_list (world_after repeat_login)) 0 5 = "user" ∧
  length (user_list (world_after repeat_login)) = 1%nat ∧
  findIndex (has_email "ani@example.org") (users (world_after repeat_login))
    = Some 0%nat.
Proof.
  assert (Hrun : POST_auth_google sample_verifyIdToken sample_sign
                   sample_stringify sample_time "google-assertion" world_with_ani =
                 (Returned (response_of repeat_login), world_after repeat_login))
    by (vm_compute; reflexivity).
  destruct (login_rewrites_one_row _ _ _ _ _ _ _ _ Hrun eq_refl)
    as (user & i & Hv & Hi & Hi' & Hlen & _ & _ & _ & _ & Hrole & _).
  injection Hv as <-. injection Hi as <-.
  split_and!; [exact Hrun | reflexivity | reflexivity | exact Hrole
              | exact Hlen | exact Hi'].
Defined.

Lemma failed_audit_keeps_the_write_witness :
  is_mutation (UpdateRecord "1" sample_payload) ∧
  (Append (columns LOG_ACTIVITY colA colF)
     [[VNumber 1; VString "Ani"; VString "ani@example.org"; VString "UPDATE";
       VString "{id,updates}"; VString "200000"]], true)
    ∈ new_calls world_unlogged (world_after update_unlogged) ∧
  status (response_of update_unlogged) = 500%nat ∧
  log_activity (world_after update_unlogged) = [] ∧
  main_data world_unlogged = one_record "1" ∧
  main_data (world_after update_unlogged) =
    [render_row (record_row (VString "1") sample_payload "200000")] ∧
  cell (main_data world_unlogged) 0 1 = "Citra" ∧
  cell (main_data (world_after update_unlogged)) 0 1 = "Budi".
Proof.
  assert (Hrun : handle sample_verifyIdToken sample_sign sample_stringify
                   sample_time ani (UpdateRecord "1" sample_payload)
                   world_unlogged =
                 (Returned (response_of update_unlogged),
                  world_after update_unlogged))
    by (vm_compute; reflexivity).
  assert (Hin : (Append (columns LOG_ACTIVITY colA colF)
                   [[VNumber 1; VString "Ani"; VString "ani@example.org";
                     VString "UPDATE"; VString "{id,updates}";
                     VString "200000"]], true)
                ∈ new_calls world_unlogged (world_after update_unlogged))
    by (apply (bool_decide_unpack _); vm_compute; exact I).
  destruct (failed_audit_keeps_the_write _ _ _ _ _
              (UpdateRecord "1" sample_payload) _ _ _ _ I Hrun Hin)
    as (Hstatus & Hlog & _ & i & old & Hi & Hold & Htable).
  assert (Hfound : i = 0%nat) by (vm_compute in Hi; congruence).
  subst i. injection Hold as <-.
  split_and!; [exact I | exact Hin | exact Hstatus | exact Hlog | reflexivity
              | exact Htable | reflexivity |].
  by rewrite Htable.
Defined.

Lemma write_reaches_first_match_only_witness :
  main_data world_twins !! 0%nat = main_data world_twins !! 1%nat ∧
  status (response_of update_twins) = 200%nat ∧
  main_data (world_after update_twins) !! 1%nat = main_data world_twins !! 1%nat ∧
  cell (main_data (world_after update_twins)) 0 1 = "Budi" ∧
  length (main_data (world_after update_twins)) = 2%nat.
Proof.
  destruct (write_reaches_first_match_only sample_verifyIdToken sample_sign
              sample_stringify sample_time ani "1"
              (UpdateRecord "1" sample_payload) world_twins
              (or_introl (ex_intro _ sample_payload eq_refl)))
    as (r & w' & Hrun & Hlen & _ & Hother & _).
  unfold update_twins. rewrite Hrun. unfold response_of, world_after. simpl.
  assert (Hr : ∃ r0 w0, handle sample_verifyIdToken sample_sign sample_stringify
                 sample_time ani (UpdateRecord "1" sample_payload) world_twins
               = (Returned r0, w0) ∧ status r0 = 200%nat
                 ∧ cell (main_data w0) 0 1 = "Budi")
    by (do 2 eexists; split_and!; vm_compute; reflexivity).
  destruct Hr as (r0 & w0 & Hrun0 & Hst & Hcell).
  rewrite Hrun in Hrun0. injection Hrun0 as <- <-.
  split_and!; [reflexivity | exact Hst | | exact Hcell | by rewrite Hlen].
  apply Hother. discriminate.
Defined.

Lemma soft_delete_twice_witness :
  PUT_data sample_stringify sample_time ani "1" world_one =
    (Returned (response_of delete_first), world_after delete_first) ∧
  PUT_data sample_stringify sample_time ani "1" (world_after delete_first) =
    (Returned (response_of delete_again), world_after delete_again) ∧
  status (response_of delete_again) = 200%nat ∧
  main_data (world_after delete_again) = main_data (world_after delete_first) ∧
  length (log_activity (world_after delete_again)) = 2%nat.
Proof.
  assert (H1 : PUT_data sample_stringify sample_time ani "1" world_one =
               (Returned (response_of delete_first), world_after delete_first))
    by (vm_compute; reflexivity).
  assert (H2 : PUT_data sample_stringify sample_time ani "1"
                 (world_after delete_first) =
               (Returned (response_of delete_again), world_after delete_again))
    by (vm_compute; reflexivity).
  destruct (soft_delete_twice _ _ _ _ _ _ _ _ _ _ H1 eq_refl eq_refl H2)
    as [_ Hsame].
  split_and!; [exact H1 | exact H2 | reflexivity | exact Hsame | reflexivity].
Defined.

Lemma update_erases_soft_delete_witness :
  cell (main_data (world_after delete_first)) 0 colK = "tidak aktif" ∧
  PUT_dataupdate sample_stringify sample_time ani "1" sample_payload
    (world_after delete_first) =
    (Returned (response_of update_deleted), world_after update_deleted) ∧
  status (response_of update_deleted) = 200%nat ∧
  cell (main_data (world_after update_deleted)) 0 colJ = "active" ∧
  cell (main_data (world_after update_deleted)) 0 colK = "200000".
Proof.
  assert (H1 : PUT_data sample_stringify sample_time ani "1" world_one =
               (Returned (response_of delete_first), world_after delete_first))
    by (vm_compute; reflexivity).
  assert (H2 : PUT_dataupdate sample_stringify sample_time ani "1" sample_payload
                 (world_after delete_first) =
               (Returned (response_of update_deleted), world_after update_deleted))
    by (vm_compute; reflexivity).
  destruct (update_erases_soft_delete _ _ _ _ _ _ _ _ _ _ _
              H1 eq_refl eq_refl H2 eq_refl)
    as (i & old & Hi & _ & _ & HJ & HK).
  injection Hi as <-.
  split_and!; [reflexivity | exact H2 | reflexivity | exact HJ | exact HK].
Defined.




Lemma logActivity_outcomes_witness :
  logActivity sample_stringify sample_time ani "LOGIN"
    (DetailsText "User Login Attempt") world_logged =
    (Returned (), log_a_login.2) ∧
  length (log_activity world_logged) = 1%nat ∧
  ∃ number,
    log_activity (log_a_login.2) =
      (one_entry "5"
       ++ [[number; "Ani"; "ani@example.org"; "LOGIN";
            sample_stringify (DetailsText "User Login Attempt");
            sample_time (clock world_logged)]])%list ∧
    number = "6".
Proof.
  assert (Hc : logActivity sample_stringify sample_time ani "LOGIN"
                 (DetailsText "User Login Attempt") world_logged =
               (Returned (), log_a_login.2))
    by (vm_compute; reflexivity).
  destruct (logActivity_outcomes sample_stringify sample_time ani "LOGIN"
              (DetailsText "User Login Attempt") world_logged)
    as (out & w' & Hrun & _ & _ & Hout).
  rewrite Hc in Hrun. injection Hrun as <- <-.
  destruct Hout as [(_ & number & Hlog & _ & Hread) | (Hthrown & _)];
    [|discriminate Hthrown].
  split_and!; [exact Hc | reflexivity |].
  exists number. split; [exact Hlog|].
  rewrite Hread; [reflexivity | | vm_compute; reflexivity].
  apply (bool_decide_unpack _). vm_compute. exact I.
Defined.

Lemma log_numbering_is_kept_witness :
  numbered (one_entry "1") ∧
  handle sample_verifyIdToken sample_sign sample_stringify sample_time ani
    (CreateRecord sample_payload) (world_of [] (one_entry "1") []) =
    (Returned (response_of (create_logged "1")),
     world_after (create_logged "1")) ∧
  numbered (log_activity (world_after (create_logged "1"))) ∧
  length (log_activity (world_after (create_logged "1"))) = 2%nat.
Proof.
  assert (Hnum : numbered (log_activity (world_of [] (one_entry "1") []))).
  { intros [|i] row Hrow; [by injection Hrow as <-|].
    unfold world_of, one_entry in Hrow. simpl in Hrow.
    by rewrite lookup_nil in Hrow. }
  assert (Hrun : handle sample_verifyIdToken sample_sign sample_stringify
                   sample_time ani (CreateRecord sample_payload)
                   (world_of [] (one_entry "1") []) =
                 (Returned (response_of (create_logged "1")),
                  world_after (create_logged "1")))
    by (vm_compute; reflexivity).
  assert (Hread : (Get (reference_column LOG_ACTIVITY), true)
                    ∉ new_calls (world_of [] (one_entry "1") [])
                        (world_after (create_logged "1")))
    by (apply (bool_decide_unpack _); vm_compute; exact I).
  destruct (log_numbering_is_kept _ _ _ _ _ _ _ _ _ Hnum Hrun Hread)
    as (Hkept & _ & _).
  split_and!; [exact Hnum | exact Hrun | exact Hkept | reflexivity].
Defined.
